(** * MindwaveAdapter: a shallow embedding of [mindwave.py]

    The adapter reads a ThinkGear byte stream from a serial port, finds the
    two sync bytes, reads a length-prefixed packet, checks its checksum and
    decodes the payload into a dictionary of readings.

    Python values are modelled as follows:
    - [int] is [Z] (unbounded);
    - a byte string returned by [serial.Serial.read] is a [list byte];
    - [str] is [string]; the payload is a Python list of two-character
      hexadecimal strings, exactly as [_read_packet] builds it;
    - a [dict] is an association list kept in insertion order;
    - a raised exception is the [Raise] constructor of [res];
    - a [while] loop takes a fuel argument and returns [None] when the fuel
      does not suffice. *)

From Stdlib Require Import ZArith List String Ascii Strings.Byte Bool Lia.
From Stdlib Require Import Permutation.
Import ListNotations.

Local Open Scope string_scope.
Local Open Scope list_scope.
Local Open Scope Z_scope.

(** ** Exceptions and the error monad *)

Inductive exn : Type :=
| ChecksumFailed
| ValueError
| KeyError
| IndexError
| Exception.

Inductive res (A : Type) : Type :=
| Ok (a : A)
| Raise (e : exn).

Arguments Ok {A} a.
Arguments Raise {A} e.

Definition bind {A B : Type} (m : res A) (k : A -> res B) : res B :=
  match m with
  | Ok a => k a
  | Raise e => Raise e
  end.

Declare Scope py_scope.
Delimit Scope py_scope with py.
Notation "x <- m ;; k" := (bind m (fun x => k))
  (at level 61, m at next level, right associativity) : py_scope.
Notation "' p <- m ;; k" := (bind m (fun x => match x with p => k end))
  (at level 61, p pattern, m at next level, right associativity) : py_scope.
Local Open Scope py_scope.

(** ** Python built-ins used by the adapter *)

Module Py.

(** [len(l)] *)
Definition len {A : Type} (l : list A) : Z := Z.of_nat (List.length l).

(** [l[i]]: a negative index counts from the end, anything out of range
    raises [IndexError]. *)
Definition getitem {A : Type} (l : list A) (i : Z) : res A :=
  let j := if i <? 0 then i + len l else i in
  if j <? 0 then Raise IndexError
  else match nth_error l (Z.to_nat j) with
       | Some a => Ok a
       | None => Raise IndexError
       end.

(** How a slice bound is normalised: negative bounds count from the end,
    and the result is clipped to [0, len]. *)
Definition clip (n k : Z) : Z :=
  if k <? 0 then Z.max 0 (k + n) else Z.min k n.

(** [l[start:stop]] *)
Definition slice {A : Type} (l : list A) (start stop : Z) : list A :=
  let s := clip (len l) start in
  let e := clip (len l) stop in
  firstn (Z.to_nat (e - s)) (skipn (Z.to_nat s) l).

(** The value of one digit character in the given base; letters of either
    case are digits ten to thirty-five, as in Python. *)
Definition digit_value (c : ascii) : option Z :=
  let n := Z.of_nat (nat_of_ascii c) in
  if (48 <=? n) && (n <=? 57) then Some (n - 48)
  else if (97 <=? n) && (n <=? 122) then Some (n - 97 + 10)
  else if (65 <=? n) && (n <=? 90) then Some (n - 65 + 10)
  else None.

Fixpoint int_digits (base : Z) (acc : Z) (s : string) : res Z :=
  match s with
  | EmptyString => Ok acc
  | String c s' =>
      match digit_value c with
      | Some d => if d <? base then int_digits base (acc * base + d) s'
                  else Raise ValueError
      | None => Raise ValueError
      end
  end.

(** [int(s, base)] on a string of digits.  The empty string and any
    character that is not a digit of the base raise [ValueError].  The
    strings the adapter converts come from [encode], so they hold
    hexadecimal digits only: signs, blanks, underscores and prefixes never
    occur and are not modelled. *)
Definition int (s : string) (base : Z) : res Z :=
  match s with
  | EmptyString => Raise ValueError
  | _ => int_digits base 0 s
  end.

(** [codecs.encode(bs, 'hex')] / [bs.encode('hex')]: two lowercase
    hexadecimal digits per byte. *)
Definition hex_digit (n : N) : ascii :=
  if (n <? 10)%N then ascii_of_N (48 + n) else ascii_of_N (87 + n).

Fixpoint hex (bs : list byte) : string :=
  match bs with
  | [] => EmptyString
  | b :: bs' =>
      let n := Byte.to_N b in
      String (hex_digit (n / 16)) (String (hex_digit (n mod 16)) (hex bs'))
  end.

(** [d[k] = v] on a dictionary: replaces the value of an existing key in
    place, appends a new key. *)
Fixpoint setitem {V : Type} (d : list (string * V)) (k : string) (v : V)
  : list (string * V) :=
  match d with
  | [] => [(k, v)]
  | (k', v') :: d' =>
      if String.eqb k' k then (k', v) :: d' else (k', v') :: setitem d' k v
  end.

(** [d[k]] on a dictionary with integer keys; [KeyError] when absent. *)
Fixpoint lookup {V : Type} (d : list (Z * V)) (k : Z) : res V :=
  match d with
  | [] => Raise KeyError
  | (k', v) :: d' => if k' =? k then Ok v else lookup d' k
  end.

(** [range(a, b)] *)
Definition range (a b : Z) : list Z :=
  map (fun k => a + Z.of_nat k) (seq 0 (Z.to_nat (b - a))).

(** [l1 == l2] on lists. *)
Fixpoint list_eqb {A : Type} (eqb : A -> A -> bool) (l1 l2 : list A)
  : bool :=
  match l1, l2 with
  | [], [] => true
  | a :: l1', b :: l2' => eqb a b && list_eqb eqb l1' l2'
  | _, _ => false
  end.

(** [d.keys()] *)
Definition keys {V : Type} (d : list (string * V)) : list string :=
  map fst d.

(** [[f(x) for x in l]] where [f] may raise. *)
Fixpoint comprehension {A B : Type} (f : A -> res B) (l : list A)
  : res (list B) :=
  match l with
  | [] => Ok []
  | a :: l' =>
      b <- f a ;;
      bs <- comprehension f l' ;;
      Ok (b :: bs)
  end.

End Py.

(** The value of a byte as an integer, 0 to 255. *)
Definition bz (b : byte) : Z := Z.of_N (Byte.to_N b).

(** ** The serial port

    [serial.Serial] belongs to pyserial.  The adapter uses its constructor,
    [isOpen] and [read]; the port is never closed by the adapter. *)

Record Serial : Type := mkSerial {
  port : string;
  baudrate : Z;
  timeout : Z;
  is_open : bool
}.

(** [serial.Serial(port, baudrate, timeout=t)]: a port that is given to the
    constructor is opened at once.  A device that cannot be opened
    ([SerialException]) is not modelled. *)
Definition Serial_new (port : string) (baudrate timeout : Z) : Serial :=
  {| port := port; baudrate := baudrate; timeout := timeout; is_open := true |}.

(** What [print] writes. *)
Inductive Line : Type :=
| WrongChecksum (checksum expected_checksum : Z)
| InvalidLength (length : Z).

(** The world outside the adapter: the bytes the headset has still to
    deliver, and the lines printed so far. *)
Record World : Type := mkWorld {
  incoming : list byte;
  stdout : list Line
}.

Definition print (l : Line) (w : World) : World :=
  {| incoming := incoming w; stdout := stdout w ++ [l] |}.

(** [sensor.read(n)]: the next [n] bytes; when the line runs dry the read
    times out and returns the bytes it got, possibly none.  An I/O failure
    of the device ([SerialException]) is not modelled. *)
Definition Serial_read (sensor : Serial) (n : Z) (w : World)
  : list byte * World :=
  (firstn (Z.to_nat n) (incoming w),
   {| incoming := skipn (Z.to_nat n) (incoming w); stdout := stdout w |}).

(** ** The adapter *)

Inductive Value : Type :=
| VInt (n : Z)
| VDict (d : list (string * Z)).

Definition ReadingSet : Type := list (string * Value).

(** [runtime] is [sys.version_info.major] of the interpreter the adapter
    runs under.  It is not an attribute of the Python object; it is kept
    here because [__init__] and [dict.keys] depend on it. *)
Record MindwaveAdapter : Type := mkAdapter {
  sensor : Serial;
  skip_raw_wave : bool;
  waves : list string;
  encode : list byte -> string;
  runtime : Z
}.

Definition default_waves : list string :=
  ["delta"; "theta"; "low_alpha"; "high_alpha";
   "low_beta"; "high_beta"; "low_gamma"; "mid_gamma"].

Definition _encode_v2 (input_bytes : list byte) : string :=
  Py.hex input_bytes.

Definition _encode_v3 (input_bytes : list byte) : string :=
  let result := Py.hex input_bytes in
  result.

Definition __init__ (major : Z) (port : string) (baudrate timeout : Z)
  (skip_raw_wave : bool) : res MindwaveAdapter :=
  let sensor := Serial_new port baudrate 10 in
  let version := major in
  if version =? 3 then
    Ok {| sensor := sensor; skip_raw_wave := skip_raw_wave;
          waves := default_waves; encode := _encode_v3; runtime := major |}
  else if version =? 2 then
    Ok {| sensor := sensor; skip_raw_wave := skip_raw_wave;
          waves := default_waves; encode := _encode_v2; runtime := major |}
  else Raise Exception.

(** The defaults of [__init__]'s keyword arguments. *)
Definition default_port : string := "/dev/rfcomm0".
Definition default_baudrate : Z := 57600.
Definition default_timeout : Z := 10.
Definition default_skip_raw_wave : bool := true.

(** [_read(bytes_leng)], that is with [to_int=False]: the hexadecimal text
    of what the port returned. *)
Definition _read (self : MindwaveAdapter) (bytes_leng : Z) (w : World)
  : string * World :=
  let (result, w) := Serial_read (sensor self) bytes_leng w in
  let result := encode self result in
  (result, w).

(** [_read(bytes_leng, to_int=True)] *)
Definition _read_int (self : MindwaveAdapter) (bytes_leng : Z) (w : World)
  : res Z * World :=
  let (result, w) := _read self bytes_leng w in
  (Py.int result 16, w).

(** The [for] loop of [_read_packet]; [range_] is what is left of
    [range(0, length)]. *)
Fixpoint _read_packet_loop (self : MindwaveAdapter) (range_ : list Z)
  (checksum : Z) (result : list string) (w : World)
  : res (Z * list string) * World :=
  match range_ with
  | [] => (Ok (checksum, result), w)
  | _ :: range_ =>
      let (value, w) := _read self 1 w in
      match Py.int value 16 with
      | Raise e => (Raise e, w)
      | Ok n => _read_packet_loop self range_ (checksum + n)
                  (result ++ [value]) w
      end
  end.

Definition _read_packet (self : MindwaveAdapter) (length : Z) (w : World)
  : res (list string) * World :=
  match _read_packet_loop self (Py.range 0 length) 0 [] w with
  | (Raise e, w) => (Raise e, w)
  | (Ok (checksum, result), w) =>
      let checksum := Z.land checksum 255 in
      let checksum := Z.land (Z.lnot checksum) 255 in
      match _read_int self 1 w with
      | (Raise e, w) => (Raise e, w)
      | (Ok expected_checksum, w) =>
          if negb (checksum =? expected_checksum) then
            (Raise ChecksumFailed,
             print (WrongChecksum checksum expected_checksum) w)
          else (Ok result, w)
      end
  end.

(** What [_wait_for_ready_state] returns: [True], or [None] when the loop
    ends because the port is not open. *)
Inductive Ready : Type := ReadyTrue | ReadyNone.

Fixpoint _wait_for_ready_state (self : MindwaveAdapter) (fuel : nat)
  (w : World) : option (Ready * World) :=
  match fuel with
  | O => None
  | S fuel =>
      if is_open (sensor self) then
        let (a, w) := _read self 1 w in
        let (b, w) := _read self 1 w in
        if negb (String.eqb a "aa") || negb (String.eqb b "aa") then
          let a := b in
          let (b, w) := _read self 1 w in
          _wait_for_ready_state self fuel w
        else Some (ReadyTrue, w)
      else Some (ReadyNone, w)
  end.

Definition _big_endian (byte_input : list Z) : res Z :=
  b0 <- Py.getitem byte_input 0 ;;
  b1 <- Py.getitem byte_input 1 ;;
  b2 <- Py.getitem byte_input 2 ;;
  Ok (b0 * 2 ^ 16 + b1 * 2 ^ 8 + b2).

Definition read_default_value (payload : list string) (i : Z)
  : res (Value * Z) :=
  let i := i + 1 in
  s <- Py.getitem payload i ;;
  n <- Py.int s 16 ;;
  Ok (VInt n, i + 1).

Definition raw_wave (payload : list string) (i : Z) : res (Value * Z) :=
  s <- Py.getitem payload (i + 1) ;;
  length <- Py.int s 10 ;;
  if negb (length =? 2) then Raise ValueError
  else
    let start := i + 2 in
    let end_ := i + 2 + length in
    ks <- Py.comprehension (fun k => Py.int k 16)
            (Py.slice payload start end_) ;;
    match ks with
    | [a; b] =>
        let value := a * 256 + b in
        let value := if value >=? 32768 then value - 65536 else value in
        Ok (VInt value, end_ + 1)
    | _ => Raise ValueError
    end.

(** The [for] loop of [asic_eeg]; [range_] is what is left of
    [range(0, 8)]. *)
Fixpoint asic_eeg_loop (self : MindwaveAdapter) (payload : list string)
  (range_ : list Z) (start end_ : Z) (result : list (string * Z))
  : res (list (string * Z)) :=
  match range_ with
  | [] => Ok result
  | count :: range_ =>
      wave <- Py.getitem (waves self) count ;;
      numbers <- Py.comprehension (fun num => Py.int num 16)
                   (Py.slice payload start end_) ;;
      let start := end_ in
      let end_ := start + 3 in
      value <- _big_endian numbers ;;
      asic_eeg_loop self payload range_ start end_
        (Py.setitem result wave value)
  end.

Definition asic_eeg (self : MindwaveAdapter) (payload : list string) (i : Z)
  : res (Value * Z) :=
  let i := i + 1 in
  s <- Py.getitem payload i ;;
  length <- Py.int s 10 ;;
  let length := 24 in
  let i := i + 1 in
  let start := i in
  let end_ := i + 3 in
  result <- asic_eeg_loop self payload (Py.range 0 8) start end_ [] ;;
  Ok (VDict result, i + length).

Definition decoder : Type := list string -> Z -> res (Value * Z).

(** [self.codes] *)
Definition codes (self : MindwaveAdapter) : list (Z * (string * decoder)) :=
  [ (2, ("poor_signal", read_default_value));
    (4, ("attention", read_default_value));
    (5, ("meditation", read_default_value));
    (16, ("blink_strength", read_default_value));
    (80, ("raw_wave", raw_wave));
    (83, ("asic_eeg", asic_eeg self)) ].

(** One turn of the [while] loop of [get_payload_values]: the new index and
    the updated result. *)
Definition get_payload_values_body (self : MindwaveAdapter)
  (payload : list string) (i : Z) (result : ReadingSet)
  : res (Z * ReadingSet) :=
  code <- Py.getitem payload i ;;
  key <- Py.int code 10 ;;
  '(func_name, func) <- Py.lookup (codes self) key ;;
  '(value, i) <- func payload i ;;
  Ok (i, Py.setitem result func_name value).

Fixpoint get_payload_values_loop (self : MindwaveAdapter) (fuel : nat)
  (payload : list string) (length : Z) (i : Z) (result : ReadingSet)
  : option (res ReadingSet) :=
  match fuel with
  | O => None
  | S fuel =>
      if i <? length then
        match get_payload_values_body self payload i result with
        | Raise e => Some (Raise e)
        | Ok (i, result) =>
            get_payload_values_loop self fuel payload length i result
        end
      else Some (Ok result)
  end.

Definition get_payload_values (self : MindwaveAdapter) (fuel : nat)
  (payload : list string) (length : Z) : option (res ReadingSet) :=
  get_payload_values_loop self fuel payload length 0 [].

(** [result.keys() == l]: under Python 2 [keys] is a list and the
    comparison is that of lists; under Python 3 it is a view, which never
    equals a list. *)
Definition keys_eq (self : MindwaveAdapter) (result : ReadingSet)
  (l : list string) : bool :=
  if runtime self =? 2 then Py.list_eqb String.eqb (Py.keys result) l
  else false.

(** What one turn of the [while] loop of [values] does. *)
Inductive Step : Type :=
| Yield (result : ReadingSet)
| Continue
| Propagate (e : exn).

(** The [try] block of [values]. *)
Definition values_try (self : MindwaveAdapter) (fuel : nat) (length : Z)
  (w : World) : option (res Step * World) :=
  match _read_packet self length w with
  | (Raise e, w) => Some (Raise e, w)
  | (Ok payload, w) =>
      match get_payload_values self fuel payload length with
      | None => None
      | Some (Raise e) => Some (Raise e, w)
      | Some (Ok result) =>
          if skip_raw_wave self && keys_eq self result ["raw_wave"]
          then Some (Ok Continue, w)
          else Some (Ok (Yield result), w)
      end
  end.

(** The body of the [while] loop of [values]. *)
Definition values_body (self : MindwaveAdapter) (fuel : nat) (w : World)
  : option (Step * World) :=
  match _wait_for_ready_state self fuel w with
  | None => None
  | Some (_, w) =>
      match _read_int self 1 w with
      | (Raise e, w) => Some (Propagate e, w)
      | (Ok length, w) =>
          if length >? 169 then
            Some (Continue, print (InvalidLength length) w)
          else
            match values_try self fuel length w with
            | None => None
            | Some (Ok step, w) => Some (step, w)
            | Some (Raise ChecksumFailed, w) => Some (Continue, w)
            | Some (Raise e, w) => Some (Propagate e, w)
            end
      end
  end.

(** How a run of the generator ends: the port is found closed, an exception
    leaves the generator, or the fuel is used up while it is still
    running. *)
Inductive Stop : Type :=
| Closed
| Raised (e : exn)
| Running.

(** The generator [values]: the reading sets it yields, in order, how it
    stops, and the world it leaves. *)
Fixpoint values (self : MindwaveAdapter) (fuel : nat) (w : World)
  : list ReadingSet * Stop * World :=
  match fuel with
  | O => ([], Running, w)
  | S fuel' =>
      if is_open (sensor self) then
        match values_body self fuel w with
        | None => ([], Running, w)
        | Some (Yield result, w) =>
            let '(ys, stop, w) := values self fuel' w in
            (result :: ys, stop, w)
        | Some (Continue, w) => values self fuel' w
        | Some (Propagate e, w) => ([], Raised e, w)
        end
      else ([], Closed, w)
  end.

(** ** Inputs and reference values used in the statements *)

(** The payload list [_read_packet] builds from the bytes [B]: one
    two-character hexadecimal string per byte. *)
Definition payload_of (B : list byte) : list string :=
  map (fun b => Py.hex [b]) B.

(** The checksum of a payload as the specification words it:
    [(~(sum(B) & 0xFF)) & 0xFF]. *)
Definition byte_sum (B : list byte) : Z :=
  fold_right (fun b s => bz b + s) 0 B.

Definition checksum_of (B : list byte) : Z :=
  Z.land (Z.lnot (Z.land (byte_sum B) 255)) 255.

(** The byte [b] with bit [k] flipped. *)
Definition flip_bit (k : nat) (b : byte) : byte :=
  match Byte.of_N (N.lxor (Byte.to_N b) (2 ^ N.of_nat k)) with
  | Some b' => b'
  | None => b
  end.

(** The tag bytes the decode loop recognises. *)
Definition recognised_tags : list byte := [x02; x04; x05; x16; x80; x83].

(** A three-byte big-endian unsigned value, and the bytes of a sequence of
    such groups. *)
Definition be3 (t : byte * byte * byte) : Z :=
  let '(b0, b1, b2) := t in bz b0 * 65536 + bz b1 * 256 + bz b2.

Definition triples (ts : list (byte * byte * byte)) : list byte :=
  flat_map (fun t => let '(b0, b1, b2) := t in [b0; b1; b2]) ts.

(** The adapter [__init__] builds under Python 3 from the default
    arguments. *)
Definition py3_adapter : MindwaveAdapter :=
  {| sensor := Serial_new default_port default_baudrate 10;
     skip_raw_wave := default_skip_raw_wave;
     waves := default_waves;
     encode := _encode_v3;
     runtime := 3 |}.

(** The bytes still to come in [w'] are a tail of those in [w]. *)
Definition consumed_to (w w' : World) : Prop :=
  exists consumed : list byte, incoming w = consumed ++ incoming w'.

(** [r] is the decoding of a packet that lies in [input]: the two sync
    bytes, a length byte of at most 169, that many payload bytes and their
    checksum. *)
Definition decodes_packet_of (self : MindwaveAdapter) (input : list byte)
  (r : ReadingSet) : Prop :=
  exists (pre B post : list byte) (l c : byte) (fuel : nat),
    input = pre ++ xaa :: xaa :: l :: B ++ c :: post
    /\ bz l = Py.len B
    /\ bz l <= 169
    /\ bz c = checksum_of B
    /\ get_payload_values self fuel (payload_of B) (bz l) = Some (Ok r).

(** An adapter built by [__init__] with the default arguments, under the
    given interpreter, satisfies [P]. *)
Definition default_adapter_sat (major : Z) (P : MindwaveAdapter -> Prop)
  : Prop :=
  match __init__ major default_port default_baudrate default_timeout
          default_skip_raw_wave with
  | Ok self => P self
  | Raise _ => False
  end.

(** The big-endian value of a byte string. *)
Definition be_value (bs : list byte) : Z :=
  fold_left (fun acc b => acc * 256 + bz b) bs 0.

(** A group of three bytes that does not start with the two sync bytes. *)
Definition no_sync (g : byte * byte * byte) : Prop :=
  fst (fst g) <> xaa \/ snd (fst g) <> xaa.

(** The four scalar fields of [codes], with the tag byte whose hexadecimal
    text reads as the key, and the name the key maps to. *)
Inductive scalar : Type :=
| PoorSignal
| Attention
| Meditation
| BlinkStrength.

Definition tag_of (c : scalar) : byte :=
  match c with
  | PoorSignal => x02
  | Attention => x04
  | Meditation => x05
  | BlinkStrength => x16
  end.

Definition name_of (c : scalar) : string :=
  match c with
  | PoorSignal => "poor_signal"
  | Attention => "attention"
  | Meditation => "meditation"
  | BlinkStrength => "blink_strength"
  end.

(** The bytes of a run of scalar fields, and the reading set they build up
    from [result]. *)
Definition scalar_bytes (fields : list (scalar * byte)) : list byte :=
  flat_map (fun f => [tag_of (fst f); snd f]) fields.

Definition scalar_store (fields : list (scalar * byte)) (result : ReadingSet)
  : ReadingSet :=
  fold_left (fun r f => Py.setitem r (name_of (fst f)) (VInt (bz (snd f))))
    fields result.

(** The names [codes] stores readings under. *)
Definition field_names : list string :=
  ["poor_signal"; "attention"; "meditation"; "blink_strength"; "raw_wave";
   "asic_eeg"].

(** The adapter [__init__] builds under Python 2 from the default
    arguments. *)
Definition py2_adapter : MindwaveAdapter :=
  {| sensor := Serial_new default_port default_baudrate 10;
     skip_raw_wave := default_skip_raw_wave;
     waves := default_waves;
     encode := _encode_v2;
     runtime := 2 |}.

(** The reading sets whose only key is [raw_wave] are the ones
    [skip_raw_wave] is meant to drop. *)
Definition raw_wave_only (r : ReadingSet) : bool :=
  Py.list_eqb String.eqb (Py.keys r) ["raw_wave"].

(** Whether a text holds one of the letters [a] to [f], the digits of a
    hexadecimal text that are not decimal digits. *)
Fixpoint text_has_letter (s : string) : bool :=
  match s with
  | EmptyString => false
  | String c s' =>
      let n := Z.of_nat (nat_of_ascii c) in
      ((97 <=? n) && (n <=? 102)) || text_has_letter s'
  end.

(** The states the decode loop goes through on a payload: it starts at
    index 0 with the empty result, and each turn that returns takes it to
    the next index with the updated result. *)
Inductive decode_reaches (self : MindwaveAdapter) (payload : list string)
  : Z -> ReadingSet -> Prop :=
| reaches_start : decode_reaches self payload 0 []
| reaches_step (i : Z) (result : ReadingSet) (j : Z) (result' : ReadingSet) :
    decode_reaches self payload i result ->
    get_payload_values_body self payload i result = Ok (j, result') ->
    decode_reaches self payload j result'.

(** * Properties *)

(** ** Bytes and their hexadecimal text *)

Lemma bz_range (b : byte) : 0 <= bz b < 256.
Proof.
  unfold bz. pose proof (Byte.to_N_bounded b) as H. lia.
Qed.

Lemma int16_hex (b : byte) : Py.int (Py.hex [b]) 16 = Ok (bz b).
Proof. destruct b; vm_compute; reflexivity. Qed.

Lemma hex_aa (b : byte) : String.eqb (Py.hex [b]) "aa" = true -> b = xaa.
Proof. destruct b; vm_compute; intro H; (reflexivity || discriminate H). Qed.

Lemma int10_hex_2 (b : byte) : Py.int (Py.hex [b]) 10 = Ok 2 -> b = x02.
Proof. destruct b; vm_compute; intro H; (reflexivity || discriminate H). Qed.

Lemma int10_hex_not_ok (b : byte) e :
  Py.int (Py.hex [b]) 10 = Raise e -> e = ValueError.
Proof.
  destruct b; vm_compute; intro H; inversion H; reflexivity.
Qed.

(** ** Lists *)

Lemma len_nonneg {A : Type} (l : list A) : 0 <= Py.len l.
Proof. unfold Py.len. lia. Qed.

Lemma len_app {A : Type} (l1 l2 : list A) :
  Py.len (l1 ++ l2) = Py.len l1 + Py.len l2.
Proof. unfold Py.len. rewrite length_app. lia. Qed.

Lemma len_cons {A : Type} (a : A) (l : list A) :
  Py.len (a :: l) = 1 + Py.len l.
Proof. unfold Py.len. simpl List.length. lia. Qed.

Lemma len_payload_of (B : list byte) : Py.len (payload_of B) = Py.len B.
Proof. unfold Py.len, payload_of. now rewrite length_map. Qed.

Lemma getitem_app_r {A : Type} (l1 l2 : list A) (k : Z) :
  0 <= k -> Py.getitem (l1 ++ l2) (Py.len l1 + k) = Py.getitem l2 k.
Proof.
  intro Hk. pose proof (len_nonneg l1) as H1. unfold Py.getitem.
  assert (E1 : (Py.len l1 + k <? 0) = false) by (apply Z.ltb_ge; lia).
  assert (E2 : (k <? 0) = false) by (apply Z.ltb_ge; lia).
  cbv zeta. rewrite E1, E2, E1, E2.
  unfold Py.len in *.
  replace (Z.to_nat (Z.of_nat (List.length l1) + k))
    with (List.length l1 + Z.to_nat k)%nat by lia.
  rewrite nth_error_app2 by lia.
  replace (List.length l1 + Z.to_nat k - List.length l1)%nat
    with (Z.to_nat k) by lia.
  reflexivity.
Qed.

Lemma getitem_at {A : Type} (l1 l2 : list A) (a : A) (i : Z) :
  i = Py.len l1 -> Py.getitem (l1 ++ a :: l2) i = Ok a.
Proof.
  intros ->. replace (Py.len l1) with (Py.len l1 + 0) by lia.
  rewrite getitem_app_r by lia. reflexivity.
Qed.

Lemma getitem_past {A : Type} (l : list A) (i : Z) :
  Py.len l <= i -> Py.getitem l i = Raise IndexError.
Proof.
  intro H. pose proof (len_nonneg l) as H0. unfold Py.getitem.
  assert (E0 : (i <? 0) = false) by (apply Z.ltb_ge; lia).
  cbv zeta. rewrite E0, E0.
  destruct (nth_error l (Z.to_nat i)) eqn:E; [|reflexivity].
  assert (Hn : nth_error l (Z.to_nat i) <> None) by congruence.
  apply nth_error_Some in Hn. unfold Py.len in H. lia.
Qed.

Lemma slice_mid {A : Type} (l1 l2 l3 : list A) (s e : Z) :
  s = Py.len l1 -> e = Py.len l1 + Py.len l2 ->
  Py.slice (l1 ++ l2 ++ l3) s e = l2.
Proof.
  intros -> ->. unfold Py.slice, Py.clip. rewrite !len_app.
  pose proof (len_nonneg l1). pose proof (len_nonneg l2).
  pose proof (len_nonneg l3).
  assert (E1 : (Py.len l1 <? 0) = false) by (apply Z.ltb_ge; lia).
  assert (E2 : (Py.len l1 + Py.len l2 <? 0) = false) by (apply Z.ltb_ge; lia).
  cbv zeta. rewrite E1, E2.
  rewrite !Z.min_l by lia.
  replace (Py.len l1 + Py.len l2 - Py.len l1) with (Py.len l2) by lia.
  unfold Py.len. rewrite !Nat2Z.id.
  rewrite skipn_app, skipn_all, Nat.sub_diag. simpl.
  rewrite firstn_app, firstn_all, Nat.sub_diag. simpl.
  apply app_nil_r.
Qed.

Lemma comprehension_cons {A B : Type} (f : A -> res B) (a : A) (l : list A) :
  Py.comprehension f (a :: l) =
  (b <- f a ;; bs <- Py.comprehension f l ;; Ok (b :: bs)).
Proof. reflexivity. Qed.

Lemma comprehension_int16 (B : list byte) :
  Py.comprehension (fun k => Py.int k 16) (payload_of B) = Ok (map bz B).
Proof.
  induction B as [|b B IH]; [reflexivity|].
  change (payload_of (b :: B)) with (Py.hex [b] :: payload_of B).
  rewrite comprehension_cons, int16_hex, IH. reflexivity.
Qed.

(** ** What [__init__] establishes *)

Section Constructed.

Variables (major : Z) (port_ : string) (baudrate_ timeout_ : Z)
          (skip : bool) (self : MindwaveAdapter).
Hypothesis Hinit : __init__ major port_ baudrate_ timeout_ skip = Ok self.

Lemma init_runtime : runtime self = major /\ (major = 2 \/ major = 3).
Proof.
  unfold __init__ in Hinit.
  destruct (Z.eqb_spec major 3).
  - inversion Hinit; subst; simpl; auto.
  - destruct (Z.eqb_spec major 2); [|discriminate].
    inversion Hinit; subst; simpl; auto.
Qed.

Lemma init_sensor : sensor self = Serial_new port_ baudrate_ 10.
Proof.
  unfold __init__ in Hinit.
  destruct (major =? 3); [|destruct (major =? 2)];
    inversion Hinit; reflexivity.
Qed.

Lemma init_open : is_open (sensor self) = true.
Proof. rewrite init_sensor. reflexivity. Qed.

Lemma init_encode (bs : list byte) : encode self bs = Py.hex bs.
Proof.
  unfold __init__ in Hinit.
  destruct (major =? 3); [|destruct (major =? 2)];
    inversion Hinit; reflexivity.
Qed.

Lemma init_waves : waves self = default_waves.
Proof.
  unfold __init__ in Hinit.
  destruct (major =? 3); [|destruct (major =? 2)];
    inversion Hinit; reflexivity.
Qed.

Lemma init_skip : skip_raw_wave self = skip.
Proof.
  unfold __init__ in Hinit.
  destruct (major =? 3); [|destruct (major =? 2)];
    inversion Hinit; reflexivity.
Qed.

End Constructed.

(** ** The decode routines *)

Lemma payload_of_app (B1 B2 : list byte) :
  payload_of (B1 ++ B2) = payload_of B1 ++ payload_of B2.
Proof. apply map_app. Qed.

(** The element one place after the end of [pre]. *)
Lemma payload_getitem_1 (pre post : list byte) (a b : byte) (i : Z) :
  i = Py.len pre ->
  Py.getitem (payload_of (pre ++ a :: b :: post)) (i + 1) = Ok (Py.hex [b]).
Proof.
  intros ->.
  change (pre ++ a :: b :: post) with (pre ++ [a] ++ b :: post).
  rewrite app_assoc. rewrite payload_of_app. apply getitem_at.
  rewrite len_payload_of, len_app. reflexivity.
Qed.

Lemma read_default_value_ok (pre post : list byte) (tag v : byte) :
  read_default_value (payload_of (pre ++ tag :: v :: post)) (Py.len pre)
  = Ok (VInt (bz v), Py.len pre + 2).
Proof.
  unfold read_default_value. cbv zeta.
  rewrite payload_getitem_1 by reflexivity. cbn [bind].
  rewrite int16_hex. cbn [bind]. do 2 f_equal. lia.
Qed.

Lemma raw_wave_ok (pre post : list byte) (tag hi lo : byte) :
  raw_wave (payload_of (pre ++ tag :: x02 :: hi :: lo :: post)) (Py.len pre)
  = Ok (VInt (let v := bz hi * 256 + bz lo in
              if v >=? 32768 then v - 65536 else v),
        Py.len pre + 5).
Proof.
  unfold raw_wave.
  rewrite payload_getitem_1 by reflexivity. cbn [bind].
  change (Py.int (Py.hex ["002"%byte]) 10) with (Ok (A := Z) 2).
  cbn [bind]. change (negb (2 =? 2)) with false. cbv iota.
  change (pre ++ tag :: x02 :: hi :: lo :: post)
    with (pre ++ [tag; x02] ++ [hi; lo] ++ post).
  rewrite app_assoc, payload_of_app, (payload_of_app [hi; lo]).
  rewrite slice_mid.
  - rewrite comprehension_int16. cbn [bind map]. cbv zeta.
    do 2 f_equal. lia.
  - rewrite len_payload_of, len_app. reflexivity.
  - rewrite !len_payload_of, len_app. reflexivity.
Qed.

Lemma raw_wave_bad_length (pre post : list byte) (tag len_byte : byte) :
  len_byte <> x02 ->
  raw_wave (payload_of (pre ++ tag :: len_byte :: post)) (Py.len pre)
  = Raise ValueError.
Proof.
  intro Hne. unfold raw_wave.
  rewrite payload_getitem_1 by reflexivity. cbn [bind].
  destruct (Py.int (Py.hex [len_byte]) 10) as [n|e] eqn:E; cbn [bind].
  - destruct (Z.eqb_spec n 2) as [->|_]; [|reflexivity].
    apply int10_hex_2 in E. contradiction.
  - apply int10_hex_not_ok in E. now subst.
Qed.

(** C5: the raw-wave routine reads its two data bytes as a big-endian
    signed 16-bit integer, [high * 256 + low] less 65536 when that is
    32768 or more; 7F FF gives 32767, 80 00 gives -32768 and FF FF gives
    -1; a length byte other than 2 raises [ValueError]. *)
Theorem raw_wave_signed_16 :
  forall (pre post : list byte) (tag len_byte hi lo : byte),
    let i := Py.len pre in
    let v := bz hi * 256 + bz lo in
    let value := if v >=? 32768 then v - 65536 else v in
    raw_wave (payload_of (pre ++ tag :: x02 :: hi :: lo :: post)) i
      = Ok (VInt value, i + 5)
    /\ -32768 <= value < 32768
    /\ value mod 65536 = v
    /\ raw_wave (payload_of [x80; x02; x7f; xff]) 0 = Ok (VInt 32767, 5)
    /\ raw_wave (payload_of [x80; x02; x80; x00]) 0 = Ok (VInt (-32768), 5)
    /\ raw_wave (payload_of [x80; x02; xff; xff]) 0 = Ok (VInt (-1), 5)
    /\ (len_byte <> x02 ->
        raw_wave (payload_of (pre ++ tag :: len_byte :: post)) i
          = Raise ValueError).
Proof.
  intros pre post tag len_byte hi lo i v value.
  pose proof (bz_range hi) as Hhi. pose proof (bz_range lo) as Hlo.
  assert (Hv : 0 <= v < 65536) by (unfold v; lia).
  split; [apply raw_wave_ok|].
  split; [unfold value; destruct (Z.geb_spec v 32768); lia|].
  split.
  { unfold value. destruct (Z.geb_spec v 32768).
    - replace (v - 65536) with (v + (-1) * 65536) by lia.
      rewrite Z.mod_add by lia. apply Z.mod_small. lia.
    - apply Z.mod_small. lia. }
  repeat split; try (vm_compute; reflexivity).
  apply raw_wave_bad_length.
Qed.

Lemma raw_wave_signed_16_witness :
  raw_wave (payload_of [x80; x03; xff; xff]) 0 = Raise ValueError.
Proof.
  apply (proj2 (proj2 (proj2 (proj2 (proj2 (proj2
    (raw_wave_signed_16 [] [xff; xff] x80 x03 x00 x00))))))).
  discriminate.
Defined.

Lemma big_endian_3 (x y z : Z) :
  _big_endian [x; y; z] = Ok (x * 65536 + y * 256 + z).
Proof. reflexivity. Qed.

(** The loop of [asic_eeg] over groups of three bytes: [nts] pairs each
    group with the wave name its turn of the loop looks up. *)
Lemma asic_eeg_loop_spec (self : MindwaveAdapter) :
  forall (nts : list (string * (byte * byte * byte))) (range_ : list Z)
         (pre post : list byte) (result : list (string * Z)),
    Forall2 (fun count nt => Py.getitem (waves self) count = Ok (fst nt))
      range_ nts ->
    asic_eeg_loop self (payload_of (pre ++ triples (map snd nts) ++ post))
      range_ (Py.len pre) (Py.len pre + 3) result
    = Ok (fold_left (fun r nt => Py.setitem r (fst nt) (be3 (snd nt)))
            nts result).
Proof.
  induction nts as [|[name [[a b] c]] nts IH];
    intros range_ pre post result HF; inversion HF as [|count ? range' ? Hw HF']; subst.
  - reflexivity.
  - cbn [map snd fst triples flat_map] in *.
    cbn [asic_eeg_loop]. rewrite Hw. cbn [bind].
    fold (triples (map snd nts)).
    rewrite <- (app_assoc [a; b; c]).
    rewrite payload_of_app, (payload_of_app [a; b; c]).
    rewrite slice_mid;
      [| now rewrite len_payload_of | now rewrite !len_payload_of].
    rewrite comprehension_int16. cbn [bind map].
    rewrite big_endian_3. cbn [bind].
    rewrite <- !payload_of_app.
    rewrite app_assoc.
    replace (Py.len pre + 3) with (Py.len (pre ++ [a; b; c]))
      by (rewrite len_app; reflexivity).
    rewrite IH by assumption. reflexivity.
Qed.

Lemma asic_eeg_ok (self : MindwaveAdapter) (pre post : list byte)
  (tag len_byte : byte) (n : Z) (t0 t1 t2 t3 t4 t5 t6 t7 : byte * byte * byte) :
  waves self = default_waves ->
  Py.int (Py.hex [len_byte]) 10 = Ok n ->
  asic_eeg self
    (payload_of (pre ++ tag :: len_byte ::
                 triples [t0; t1; t2; t3; t4; t5; t6; t7] ++ post))
    (Py.len pre)
  = Ok (VDict [("delta", be3 t0); ("theta", be3 t1); ("low_alpha", be3 t2);
               ("high_alpha", be3 t3); ("low_beta", be3 t4);
               ("high_beta", be3 t5); ("low_gamma", be3 t6);
               ("mid_gamma", be3 t7)],
        Py.len pre + 26).
Proof.
  intros Hw Hn. unfold asic_eeg. cbv zeta.
  rewrite payload_getitem_1 by reflexivity. cbn [bind]. rewrite Hn.
  cbn [bind].
  change (pre ++ tag :: len_byte ::
          triples [t0; t1; t2; t3; t4; t5; t6; t7] ++ post)
    with (pre ++ [tag; len_byte] ++
          triples [t0; t1; t2; t3; t4; t5; t6; t7] ++ post).
  rewrite app_assoc.
  replace (Py.len pre + 1 + 1) with (Py.len (pre ++ [tag; len_byte]))
    by (rewrite len_app; unfold Py.len; simpl; lia).
  pose (nts := [("delta", t0); ("theta", t1); ("low_alpha", t2);
                ("high_alpha", t3); ("low_beta", t4); ("high_beta", t5);
                ("low_gamma", t6); ("mid_gamma", t7)]).
  change [t0; t1; t2; t3; t4; t5; t6; t7] with (map snd nts).
  rewrite (asic_eeg_loop_spec self nts).
  - cbn [bind]. do 2 f_equal. rewrite len_app. unfold Py.len. simpl. lia.
  - rewrite Hw. repeat constructor.
Qed.

Lemma asic_eeg_bad_length (self : MindwaveAdapter) (pre post : list byte)
  (tag len_byte : byte) (e : exn) :
  Py.int (Py.hex [len_byte]) 10 = Raise e ->
  asic_eeg self (payload_of (pre ++ tag :: len_byte :: post)) (Py.len pre)
  = Raise ValueError.
Proof.
  intro Hn. unfold asic_eeg. cbv zeta.
  rewrite payload_getitem_1 by reflexivity. cbn [bind]. rewrite Hn.
  apply int10_hex_not_ok in Hn. now subst.
Qed.

(** C4: the composite routine does not ignore the declared length byte: it
    parses the byte's hexadecimal text as a decimal number before it
    discards the result, so a length byte such as 1A raises [ValueError];
    with the length byte 18 the same 24 data bytes decode to the eight
    waves and the index advances by 26. *)
Theorem asic_eeg_length_byte_is_parsed :
  forall (self : MindwaveAdapter) (pre post : list byte) (tag : byte),
    asic_eeg self (payload_of (pre ++ tag :: x1a :: post)) (Py.len pre)
      = Raise ValueError
    /\ default_adapter_sat 3 (fun adapter =>
         let block := triples [(x00, x00, x01); (x00, x01, x00);
                               (x01, x00, x00); (xff, xff, xff);
                               (x00, x00, x05); (x00, x00, x06);
                               (x00, x00, x07); (x00, x00, x08)] in
         asic_eeg adapter (payload_of (x83 :: x1a :: block)) 0
           = Raise ValueError
         /\ asic_eeg adapter (payload_of (x83 :: x18 :: block)) 0
           = Ok (VDict [("delta", 1); ("theta", 256); ("low_alpha", 65536);
                        ("high_alpha", 16777215); ("low_beta", 5);
                        ("high_beta", 6); ("low_gamma", 7);
                        ("mid_gamma", 8)], 26)).
Proof.
  intros self pre post tag. split.
  - apply asic_eeg_bad_length with (e := ValueError).
    vm_compute. reflexivity.
  - vm_compute. split; reflexivity.
Qed.

(** ** The decode loop *)

Lemma read_default_value_next (payload : list string) (i j : Z) (v : Value) :
  read_default_value payload i = Ok (v, j) -> j = i + 2.
Proof.
  unfold read_default_value. cbv zeta.
  destruct (Py.getitem payload (i + 1)) as [s|]; cbn [bind]; [|discriminate].
  destruct (Py.int s 16); cbn [bind]; [|discriminate].
  intro H. inversion H. lia.
Qed.

Lemma raw_wave_next (payload : list string) (i j : Z) (v : Value) :
  raw_wave payload i = Ok (v, j) -> j = i + 5.
Proof.
  unfold raw_wave.
  destruct (Py.getitem payload (i + 1)) as [s|]; cbn [bind]; [|discriminate].
  destruct (Py.int s 10) as [n|]; cbn [bind]; [|discriminate].
  destruct (Z.eqb_spec n 2) as [->|]; cbn [negb]; [|discriminate].
  destruct (Py.comprehension _ _) as [ks|]; cbn [bind]; [|discriminate].
  destruct ks as [|a [|b [|c ks]]]; try discriminate.
  intro H. inversion H. lia.
Qed.

Lemma asic_eeg_next (self : MindwaveAdapter) (payload : list string)
  (i j : Z) (v : Value) :
  asic_eeg self payload i = Ok (v, j) -> j = i + 26.
Proof.
  unfold asic_eeg. cbv zeta.
  destruct (Py.getitem payload (i + 1)) as [s|]; cbn [bind]; [|discriminate].
  destruct (Py.int s 10) as [n|]; cbn [bind]; [|discriminate].
  destruct (asic_eeg_loop _ _ _ _ _ _); cbn [bind]; [|discriminate].
  intro H. inversion H. lia.
Qed.

Lemma lookup_codes (self : MindwaveAdapter) (key : Z) (name : string)
  (func : decoder) :
  Py.lookup (codes self) key = Ok (name, func) ->
  func = read_default_value \/ func = raw_wave \/ func = asic_eeg self.
Proof.
  unfold codes. cbn [Py.lookup].
  repeat match goal with
         | |- context [if ?c then _ else _] => destruct c
         end;
    intro H; inversion H; auto.
Qed.

Lemma get_payload_values_body_next (self : MindwaveAdapter)
  (payload : list string) (i j : Z) (result result' : ReadingSet) :
  get_payload_values_body self payload i result = Ok (j, result') ->
  i + 2 <= j.
Proof.
  unfold get_payload_values_body.
  destruct (Py.getitem payload i) as [code|]; cbn [bind]; [|discriminate].
  destruct (Py.int code 10) as [key|]; cbn [bind]; [|discriminate].
  destruct (Py.lookup (codes self) key) as [[name func]|] eqn:L;
    cbn [bind]; [|discriminate].
  destruct (func payload i) as [[v j']|] eqn:F; cbn [bind]; [|discriminate].
  intro H. inversion H; subst.
  destruct (lookup_codes _ _ _ _ L) as [->|[->| ->]].
  - apply read_default_value_next in F. lia.
  - apply raw_wave_next in F. lia.
  - apply asic_eeg_next in F. lia.
Qed.

Lemma get_payload_values_loop_enough (self : MindwaveAdapter)
  (payload : list string) (length : Z) :
  forall (fuel : nat) (i : Z) (result : ReadingSet),
    (Z.to_nat (length - i) < fuel)%nat ->
    exists r, forall k : nat,
      get_payload_values_loop self (fuel + k) payload length i result
      = Some r.
Proof.
  induction fuel as [|fuel IH]; intros i result Hlt; [lia|].
  cbn [Nat.add get_payload_values_loop].
  destruct (Z.ltb_spec i length) as [Hi|Hi].
  - destruct (get_payload_values_body self payload i result)
      as [[j result']|e] eqn:B.
    + apply get_payload_values_body_next in B.
      apply IH. lia.
    + exists (Raise e). reflexivity.
  - exists (Ok result). reflexivity.
Qed.

(** C9: each decode routine that returns hands back an index greater than
    the one it received (by 2, by 5 and by 26), so every turn of the decode
    loop moves the index forward and the loop ends: with fuel for
    [length + 1] turns or more, [get_payload_values] gives one and the same
    result, a reading set or an exception. *)
Theorem get_payload_values_terminates :
  forall (self : MindwaveAdapter) (payload : list string) (length i : Z)
         (result : ReadingSet),
    match read_default_value payload i with
    | Ok (_, j) => j = i + 2
    | Raise _ => True
    end
    /\ match raw_wave payload i with
       | Ok (_, j) => j = i + 5
       | Raise _ => True
       end
    /\ match asic_eeg self payload i with
       | Ok (_, j) => j = i + 26
       | Raise _ => True
       end
    /\ match get_payload_values_body self payload i result with
       | Ok (j, _) => i < j
       | Raise _ => True
       end
    /\ exists r, forall k : nat,
         get_payload_values self (S (Z.to_nat length) + k) payload length
         = Some r.
Proof.
  intros self payload length i result.
  split; [|split; [|split; [|split]]].
  - destruct (read_default_value payload i) as [[v j]|] eqn:E; [|exact I].
    now apply read_default_value_next in E.
  - destruct (raw_wave payload i) as [[v j]|] eqn:E; [|exact I].
    now apply raw_wave_next in E.
  - destruct (asic_eeg self payload i) as [[v j]|] eqn:E; [|exact I].
    now apply asic_eeg_next in E.
  - destruct (get_payload_values_body self payload i result)
      as [[j r]|] eqn:E; [|exact I].
    apply get_payload_values_body_next in E. lia.
  - unfold get_payload_values.
    apply get_payload_values_loop_enough. lia.
Qed.

(** ** Reading from the port *)

Section Reading.

Variable self : MindwaveAdapter.
Hypothesis Henc : forall bs, encode self bs = Py.hex bs.

Lemma read_cons (b : byte) (rest : list byte) (out : list Line) :
  _read self 1 (mkWorld (b :: rest) out) = (Py.hex [b], mkWorld rest out).
Proof. unfold _read, Serial_read. simpl. now rewrite Henc. Qed.

Lemma read_nil (out : list Line) :
  _read self 1 (mkWorld [] out) = (EmptyString, mkWorld [] out).
Proof. unfold _read, Serial_read. simpl. now rewrite Henc. Qed.

Lemma read_int_cons (b : byte) (rest : list byte) (out : list Line) :
  _read_int self 1 (mkWorld (b :: rest) out)
  = (Ok (bz b), mkWorld rest out).
Proof. unfold _read_int. now rewrite read_cons, int16_hex. Qed.

Lemma read_int_nil (out : list Line) :
  _read_int self 1 (mkWorld [] out) = (Raise ValueError, mkWorld [] out).
Proof. unfold _read_int. now rewrite read_nil. Qed.

(** *** [_read_packet] *)

Lemma read_packet_loop_ok :
  forall (B : list byte) (range_ : list Z) (checksum : Z)
         (result : list string) (rest : list byte) (out : list Line),
    List.length range_ = List.length B ->
    _read_packet_loop self range_ checksum result (mkWorld (B ++ rest) out)
    = (Ok (checksum + byte_sum B, result ++ payload_of B),
       mkWorld rest out).
Proof.
  induction B as [|b B IH]; intros [|r range_] checksum result rest out Hl;
    try discriminate Hl.
  - simpl. now rewrite Z.add_0_r, app_nil_r.
  - cbn [_read_packet_loop app]. rewrite read_cons, int16_hex.
    rewrite IH by (simpl in Hl; lia).
    cbn [byte_sum fold_right]. fold (byte_sum B).
    change (payload_of (b :: B)) with ([Py.hex [b]] ++ payload_of B).
    now rewrite Z.add_assoc, app_assoc.
Qed.

Lemma read_packet_loop_inv :
  forall (range_ : list Z) (checksum : Z) (result : list string)
         (w w' : World) (checksum' : Z) (result' : list string),
    _read_packet_loop self range_ checksum result w
    = (Ok (checksum', result'), w') ->
    exists B : list byte,
      incoming w = B ++ incoming w'
      /\ List.length B = List.length range_
      /\ checksum' = checksum + byte_sum B
      /\ result' = result ++ payload_of B
      /\ stdout w' = stdout w.
Proof.
  induction range_ as [|r range_ IH];
    intros checksum result [inc out] w' checksum' result' H.
  - inversion H; subst. exists []. simpl.
    now rewrite Z.add_0_r, app_nil_r.
  - cbn [_read_packet_loop] in H. destruct inc as [|b inc].
    + rewrite read_nil in H. discriminate H.
    + rewrite read_cons, int16_hex in H.
      apply IH in H. destruct H as (B & Hi & Hl & Hc & Hr & Ho).
      exists (b :: B). cbn [incoming stdout] in *.
      change (payload_of (b :: B)) with ([Py.hex [b]] ++ payload_of B).
      rewrite app_assoc, <- Hr, Hi, Ho. cbn [List.length byte_sum fold_right].
      fold (byte_sum B). repeat split; auto; lia.
Qed.

Lemma range_length (n : Z) : List.length (Py.range 0 n) = Z.to_nat n.
Proof.
  unfold Py.range. rewrite length_map, length_seq. f_equal. lia.
Qed.

Lemma read_packet_spec (B : list byte) (c : byte) (rest : list byte)
  (out : list Line) :
  _read_packet self (Py.len B) (mkWorld (B ++ c :: rest) out)
  = if checksum_of B =? bz c
    then (Ok (payload_of B), mkWorld rest out)
    else (Raise ChecksumFailed,
          mkWorld rest (out ++ [WrongChecksum (checksum_of B) (bz c)])).
Proof.
  unfold _read_packet.
  rewrite read_packet_loop_ok
    by (rewrite range_length; unfold Py.len; lia).
  rewrite read_int_cons. cbn [app]. rewrite Z.add_0_l.
  fold (checksum_of B).
  destruct (checksum_of B =? bz c); reflexivity.
Qed.

Lemma read_packet_inv (length : Z) (w w' : World) (payload : list string) :
  _read_packet self length w = (Ok payload, w') ->
  exists (B : list byte) (c : byte),
    incoming w = B ++ c :: incoming w'
    /\ List.length B = Z.to_nat length
    /\ payload = payload_of B
    /\ bz c = checksum_of B
    /\ stdout w' = stdout w.
Proof.
  unfold _read_packet.
  destruct (_read_packet_loop self (Py.range 0 length) 0 [] w)
    as [[[checksum result]|e] w1] eqn:L; [|discriminate].
  apply read_packet_loop_inv in L.
  destruct L as (B & Hi & Hl & Hc & Hr & Ho).
  rewrite range_length in Hl. rewrite Z.add_0_l in Hc. subst checksum.
  fold (checksum_of B). destruct w1 as [inc1 out1].
  destruct inc1 as [|c inc1].
  - rewrite read_int_nil. discriminate.
  - rewrite read_int_cons.
    destruct (Z.eqb_spec (checksum_of B) (bz c)) as [E|E]; cbn [negb];
      [|discriminate].
    intro H. inversion H; subst. exists B, c. simpl in *.
    rewrite Hi. repeat split; auto.
Qed.

End Reading.

(** ** The checksum *)

Lemma byte_sum_app (B1 B2 : list byte) :
  byte_sum (B1 ++ B2) = byte_sum B1 + byte_sum B2.
Proof.
  induction B1 as [|b B1 IH]; [reflexivity|].
  cbn [app byte_sum fold_right]. fold (byte_sum (B1 ++ B2)).
  fold (byte_sum B1). lia.
Qed.

Lemma byte_sum_cons (b : byte) (B : list byte) :
  byte_sum (b :: B) = bz b + byte_sum B.
Proof. reflexivity. Qed.

Lemma land_255 (x : Z) : Z.land x 255 = x mod 256.
Proof. change 255 with (Z.ones 8). now rewrite Z.land_ones by lia. Qed.

Lemma checksum_of_eq (B : list byte) :
  checksum_of B = 255 - byte_sum B mod 256.
Proof.
  unfold checksum_of. rewrite !land_255.
  pose proof (Z.mod_pos_bound (byte_sum B) 256 ltac:(lia)) as H.
  unfold Z.lnot.
  replace (Z.pred (- (byte_sum B mod 256)))
    with (255 - byte_sum B mod 256 + (-1) * 256) by lia.
  rewrite Z.mod_add by lia. apply Z.mod_small. lia.
Qed.

Lemma checksum_of_range (B : list byte) : 0 <= checksum_of B < 256.
Proof.
  rewrite checksum_of_eq.
  pose proof (Z.mod_pos_bound (byte_sum B) 256 ltac:(lia)). lia.
Qed.

Lemma flip_bit_spec (k : nat) (b : byte) :
  (k < 8)%nat ->
  Byte.to_N (flip_bit k b) = N.lxor (Byte.to_N b) (2 ^ N.of_nat k).
Proof.
  intro Hk.
  do 8 (destruct k as [|k]; [destruct b; vm_compute; reflexivity|]).
  lia.
Qed.

Lemma flip_bit_neq (k : nat) (b : byte) :
  (k < 8)%nat -> bz (flip_bit k b) <> bz b.
Proof.
  intro Hk.
  do 8 (destruct k as [|k]; [destruct b; vm_compute; discriminate|]).
  lia.
Qed.

(** Changing one byte of a payload changes its checksum. *)
Lemma checksum_of_change (B1 B2 : list byte) (b b' : byte) :
  bz b' <> bz b ->
  checksum_of (B1 ++ b' :: B2) <> checksum_of (B1 ++ b :: B2).
Proof.
  intro Hne. rewrite !checksum_of_eq, !byte_sum_app, !byte_sum_cons.
  pose proof (bz_range b) as Hb. pose proof (bz_range b') as Hb'.
  intro Heq.
  assert (E : (byte_sum B1 + (bz b' + byte_sum B2)) mod 256
              = (byte_sum B1 + (bz b + byte_sum B2)) mod 256) by lia.
  clear Heq. revert E.
  generalize (byte_sum B1) (byte_sum B2). intros s1 s2 E.
  Z.div_mod_to_equations. lia.
Qed.

(** C2: [_read_packet] returns the payload exactly when the byte after it
    is [(~(sum(B) & 0xFF)) & 0xFF] and raises [ChecksumFailed] otherwise;
    flipping one bit of one payload byte of an accepted packet, the
    checksum byte kept, raises [ChecksumFailed]. *)
Theorem read_packet_checksum :
  forall (major : Z) (port_ : string) (baudrate_ timeout_ : Z) (skip : bool)
         (self : MindwaveAdapter),
    __init__ major port_ baudrate_ timeout_ skip = Ok self ->
    forall (B : list byte) (c : byte) (rest : list byte) (out : list Line),
      _read_packet self (Py.len B) (mkWorld (B ++ c :: rest) out)
        = (if checksum_of B =? bz c
           then (Ok (payload_of B), mkWorld rest out)
           else (Raise ChecksumFailed,
                 mkWorld rest
                   (out ++ [WrongChecksum (checksum_of B) (bz c)])))
      /\ forall (B1 B2 : list byte) (b : byte) (k : nat),
           B = B1 ++ b :: B2 ->
           (k < 8)%nat ->
           bz c = checksum_of B ->
           let B' := B1 ++ flip_bit k b :: B2 in
           _read_packet self (Py.len B') (mkWorld (B' ++ c :: rest) out)
           = (Raise ChecksumFailed,
              mkWorld rest (out ++ [WrongChecksum (checksum_of B') (bz c)])).
Proof.
  intros major port_ baudrate_ timeout_ skip self Hinit B c rest out.
  pose proof (init_encode _ _ _ _ _ _ Hinit) as Henc.
  split; [now apply read_packet_spec|].
  intros B1 B2 b k -> Hk Hc B'.
  rewrite read_packet_spec by assumption.
  destruct (Z.eqb_spec (checksum_of B') (bz c)) as [E|E]; [|reflexivity].
  exfalso. apply (checksum_of_change B1 B2 b (flip_bit k b)).
  - now apply flip_bit_neq.
  - fold B'. congruence.
Qed.

Lemma read_packet_checksum_witness :
  _read_packet py3_adapter 2 (mkWorld [x03; x64; x99; xaa] [])
  = (Raise ChecksumFailed, mkWorld [xaa] [WrongChecksum 152 153]).
Proof.
  exact (proj2 (read_packet_checksum 3 default_port default_baudrate
                  default_timeout default_skip_raw_wave py3_adapter
                  eq_refl [x02; x64] x99 [xaa] [])
           [] [x64] x02 0%nat eq_refl (Nat.lt_0_succ 7) eq_refl).
Defined.

(** ** Waiting for the sync bytes *)

Section Sync.

Variable self : MindwaveAdapter.
Hypothesis Henc : forall bs, encode self bs = Py.hex bs.
Hypothesis Hopen : is_open (sensor self) = true.

Lemma wait_ready_now (fuel : nat) (rest : list byte) (out : list Line) :
  _wait_for_ready_state self (S fuel) (mkWorld (xaa :: xaa :: rest) out)
  = Some (ReadyTrue, mkWorld rest out).
Proof.
  cbn [_wait_for_ready_state]. rewrite Hopen.
  rewrite !read_cons by assumption. reflexivity.
Qed.

(** Once the line is dry every read times out and the loop goes on for
    ever. *)
Lemma wait_ready_dry (out : list Line) :
  forall fuel : nat,
    _wait_for_ready_state self fuel (mkWorld [] out) = None.
Proof.
  induction fuel as [|fuel IH]; [reflexivity|].
  cbn [_wait_for_ready_state]. rewrite Hopen.
  rewrite !read_nil by assumption. cbn. exact IH.
Qed.

(** A turn of the loop that does not find the sync bytes in the two bytes
    it reads drops a third byte as well: the next turn starts three bytes
    further on. *)
Lemma wait_ready_stride (fuel : nat) (a b c : byte) (rest : list byte)
  (out : list Line) :
  a <> xaa \/ b <> xaa ->
  _wait_for_ready_state self (S fuel) (mkWorld (a :: b :: c :: rest) out)
  = _wait_for_ready_state self fuel (mkWorld rest out).
Proof.
  intro Hab. cbn [_wait_for_ready_state]. rewrite Hopen.
  rewrite !read_cons by assumption.
  destruct (String.eqb (Py.hex [a]) "aa") eqn:Ea;
    destruct (String.eqb (Py.hex [b]) "aa") eqn:Eb; cbn [negb orb];
    try reflexivity.
  apply hex_aa in Ea. apply hex_aa in Eb. tauto.
Qed.

(** When the bytes before the sync bytes make up whole groups of three,
none of which starts with AA AA, the sync bytes are found. *)
Lemma wait_ready_aligned :
  forall (groups : list (byte * byte * byte)) (k : nat) (rest : list byte)
         (out : list Line),
    Forall (fun g => fst (fst g) <> xaa \/ snd (fst g) <> xaa) groups ->
    _wait_for_ready_state self (List.length groups + S k)
      (mkWorld (triples groups ++ xaa :: xaa :: rest) out)
    = Some (ReadyTrue, mkWorld rest out).
Proof.
  induction groups as [|[[a b] c] groups IH]; intros k rest out HF.
  - apply wait_ready_now.
  - inversion HF as [|g gs Hg HF']; subst. cbn [fst snd] in Hg.
    cbn [List.length Nat.add triples flat_map app].
    rewrite wait_ready_stride by assumption.
    now apply IH.
Qed.

Lemma wait_ready_inv :
  forall (fuel : nat) (w w' : World) (r : Ready),
    _wait_for_ready_state self fuel w = Some (r, w') ->
    r = ReadyTrue
    /\ stdout w' = stdout w
    /\ exists pre : list byte, incoming w = pre ++ xaa :: xaa :: incoming w'.
Proof.
  induction fuel as [|fuel IH]; intros [inc out] w' r H; [discriminate|].
  cbn [_wait_for_ready_state] in H. rewrite Hopen in H.
  destruct inc as [|a [|b inc]].
  - rewrite !read_nil in H by assumption. cbn in H.
    rewrite wait_ready_dry in H. discriminate.
  - rewrite read_cons, !read_nil in H by assumption.
    rewrite String.eqb_sym in H. cbn [String.eqb] in H.
    rewrite orb_true_r in H. rewrite wait_ready_dry in H. discriminate.
  - rewrite !read_cons in H by assumption.
    destruct (String.eqb (Py.hex [a]) "aa") eqn:Ea;
      [destruct (String.eqb (Py.hex [b]) "aa") eqn:Eb|]; cbn [negb orb] in H.
    + apply hex_aa in Ea. apply hex_aa in Eb. inversion H; subst.
      repeat split. exists []. reflexivity.
    + destruct inc as [|c inc].
      * rewrite read_nil in H by assumption.
        rewrite wait_ready_dry in H. discriminate.
      * rewrite read_cons in H by assumption. apply IH in H.
        destruct H as (Hr & Ho & pre & Hp). repeat split; auto.
        exists (a :: b :: c :: pre). cbn in *. now rewrite Hp.
    + destruct inc as [|c inc].
      * rewrite read_nil in H by assumption.
        rewrite wait_ready_dry in H. discriminate.
      * rewrite read_cons in H by assumption. apply IH in H.
        destruct H as (Hr & Ho & pre & Hp). repeat split; auto.
        exists (a :: b :: c :: pre). cbn in *. now rewrite Hp.
Qed.

End Sync.

(** C1: [_wait_for_ready_state] does not slide its window by one byte: a
    turn that misses reads a third byte and the next turn reads two fresh
    ones, so after one byte that is not AA the sync bytes AA AA are read as
    the second and third byte of a group and are passed over.  The search
    goes on in what follows them, it never returns positioned right after
    these sync bytes, and on the stream [p AA AA 02 02 64 99] it never
    returns at all. *)
Theorem wait_for_ready_state_passes_over_sync :
  forall (major : Z) (port_ : string) (baudrate_ timeout_ : Z) (skip : bool)
         (self : MindwaveAdapter),
    __init__ major port_ baudrate_ timeout_ skip = Ok self ->
    forall (p : byte) (rest : list byte) (out : list Line) (fuel : nat),
      p <> xaa ->
      _wait_for_ready_state self (S fuel)
        (mkWorld (p :: xaa :: xaa :: rest) out)
      = _wait_for_ready_state self fuel (mkWorld rest out)
      /\ _wait_for_ready_state self fuel
           (mkWorld (p :: xaa :: xaa :: rest) out)
         <> Some (ReadyTrue, mkWorld rest out)
      /\ _wait_for_ready_state self fuel
           (mkWorld [p; xaa; xaa; x02; x02; x64; x99] out)
         = None.
Proof.
  intros major port_ baudrate_ timeout_ skip self Hinit p rest out fuel Hp.
  pose proof (init_encode _ _ _ _ _ _ Hinit) as Henc.
  pose proof (init_open _ _ _ _ _ _ Hinit) as Hopen.
  split; [|split].
  - apply wait_ready_stride; auto.
  - destruct fuel as [|fuel]; [discriminate|].
    rewrite wait_ready_stride by auto.
    destruct (_wait_for_ready_state self fuel (mkWorld rest out))
      as [[r w']|] eqn:E; [|discriminate].
    apply wait_ready_inv in E; try assumption.
    destruct E as (_ & _ & pre & Hpre).
    intro H. injection H as _ Hw'. rewrite Hw' in Hpre.
    cbn [incoming] in Hpre.
    apply (f_equal (@List.length byte)) in Hpre.
    rewrite length_app in Hpre. cbn [List.length] in Hpre. lia.
  - destruct fuel as [|fuel]; [reflexivity|].
    rewrite wait_ready_stride by auto.
    destruct fuel as [|fuel]; [reflexivity|].
    rewrite wait_ready_stride by (auto; left; discriminate).
    destruct fuel as [|fuel]; [reflexivity|].
    cbn [_wait_for_ready_state]. rewrite Hopen.
    rewrite read_cons, !read_nil by assumption. cbn.
    now apply wait_ready_dry.
Qed.

Lemma wait_for_ready_state_passes_over_sync_witness :
  _wait_for_ready_state py3_adapter 100
    (mkWorld [x00; xaa; xaa; x02; x02; x64; x99] [])
  = None.
Proof.
  refine (proj2 (proj2 (wait_for_ready_state_passes_over_sync 3 default_port
                   default_baudrate default_timeout default_skip_raw_wave
                   py3_adapter eq_refl x00 [] [] 100%nat _))).
  discriminate.
Defined.

(** ** The generator *)

Lemma int_digits_raises (base : Z) (s : string) :
  forall (acc : Z) (e : exn),
    Py.int_digits base acc s = Raise e -> e = ValueError.
Proof.
  induction s as [|ch s IH]; intros acc e H; cbn [Py.int_digits] in H.
  - discriminate.
  - destruct (Py.digit_value ch) as [d|]; [|now inversion H].
    destruct (d <? base); [now apply IH in H|now inversion H].
Qed.

Lemma int_raises (s : string) (base : Z) (e : exn) :
  Py.int s base = Raise e -> e = ValueError.
Proof.
  destruct s; intro H; [now inversion H|].
  now apply int_digits_raises in H.
Qed.

Lemma consumed_to_refl (w : World) : consumed_to w w.
Proof. now exists []. Qed.

Lemma consumed_to_trans (w1 w2 w3 : World) :
  consumed_to w1 w2 -> consumed_to w2 w3 -> consumed_to w1 w3.
Proof.
  intros [c1 H1] [c2 H2]. exists (c1 ++ c2).
  now rewrite H1, H2, app_assoc.
Qed.

Lemma consumed_to_print (w w' : World) (l : Line) :
  consumed_to w w' -> consumed_to w (print l w').
Proof. intros [c H]. now exists c. Qed.

Lemma read_consumed (self : MindwaveAdapter) (n : Z) (w w' : World)
  (s : string) :
  _read self n w = (s, w') -> consumed_to w w'.
Proof.
  unfold _read, Serial_read. intro H. inversion H; subst.
  exists (firstn (Z.to_nat n) (incoming w)). cbn.
  symmetry. apply firstn_skipn.
Qed.

Lemma read_int_consumed (self : MindwaveAdapter) (n : Z) (w w' : World)
  (r : res Z) :
  _read_int self n w = (r, w') -> consumed_to w w'.
Proof.
  unfold _read_int. destruct (_read self n w) as [s w1] eqn:E.
  intro H. inversion H; subst. now apply read_consumed in E.
Qed.

Lemma read_packet_loop_consumed (self : MindwaveAdapter) :
  forall (range_ : list Z) (checksum : Z) (result : list string)
         (w w' : World) (r : res (Z * list string)),
    _read_packet_loop self range_ checksum result w = (r, w') ->
    consumed_to w w'.
Proof.
  induction range_ as [|k range_ IH]; intros checksum result w w' r H;
    cbn [_read_packet_loop] in H.
  - inversion H. apply consumed_to_refl.
  - destruct (_read self 1 w) as [value w1] eqn:E.
    apply read_consumed in E.
    destruct (Py.int value 16).
    + apply IH in H. now apply consumed_to_trans with w1.
    + now inversion H; subst.
Qed.

Lemma read_packet_consumed (self : MindwaveAdapter) (length : Z)
  (w w' : World) (r : res (list string)) :
  _read_packet self length w = (r, w') -> consumed_to w w'.
Proof.
  unfold _read_packet.
  destruct (_read_packet_loop self (Py.range 0 length) 0 [] w)
    as [[[checksum result]|e] w1] eqn:L;
    apply read_packet_loop_consumed in L.
  - destruct (_read_int self 1 w1) as [[expected|e] w2] eqn:R;
      apply read_int_consumed in R.
    + destruct (negb _); intro H; inversion H; subst.
      * apply consumed_to_print. now apply consumed_to_trans with w1.
      * now apply consumed_to_trans with w1.
    + intro H; inversion H; subst. now apply consumed_to_trans with w1.
  - intro H. now inversion H; subst.
Qed.

Lemma decodes_packet_of_earlier (self : MindwaveAdapter) (w w' : World)
  (r : ReadingSet) :
  consumed_to w w' ->
  decodes_packet_of self (incoming w') r ->
  decodes_packet_of self (incoming w) r.
Proof.
  intros [consumed Hc] (pre & B & post & l & c & fuel & Hi & H).
  exists (consumed ++ pre), B, post, l, c, fuel. split; [|exact H].
  now rewrite Hc, Hi, app_assoc.
Qed.

Section Stream.

Variable self : MindwaveAdapter.
Hypothesis Henc : forall bs, encode self bs = Py.hex bs.
Hypothesis Hopen : is_open (sensor self) = true.

(** A length byte above 169: the turn ends after the length byte. *)
Lemma values_body_oversize (fuel : nat) (l : byte) (rest : list byte)
  (out : list Line) :
  169 < bz l ->
  values_body self (S fuel) (mkWorld (xaa :: xaa :: l :: rest) out)
  = Some (Continue, mkWorld rest (out ++ [InvalidLength (bz l)])).
Proof.
  intro Hl. unfold values_body.
  rewrite wait_ready_now, read_int_cons by assumption.
  destruct (Z.gtb_spec (bz l) 169); [reflexivity|lia].
Qed.

(** A packet whose checksum is wrong: the turn ends after the checksum
    byte, with no exception. *)
Lemma values_body_mismatch (fuel : nat) (l c : byte) (B rest : list byte)
  (out : list Line) :
  bz l = Py.len B -> bz l <= 169 -> bz c <> checksum_of B ->
  values_body self (S fuel) (mkWorld (xaa :: xaa :: l :: B ++ c :: rest) out)
  = Some (Continue,
          mkWorld rest (out ++ [WrongChecksum (checksum_of B) (bz c)])).
Proof.
  intros Hl Hle Hc. unfold values_body.
  rewrite wait_ready_now, read_int_cons by assumption.
  destruct (Z.gtb_spec (bz l) 169); [lia|].
  unfold values_try. rewrite Hl, read_packet_spec by assumption.
  destruct (Z.eqb_spec (checksum_of B) (bz c)); [congruence|reflexivity].
Qed.

(** A packet whose checksum is right: what the turn does is decided by
    the decoder alone. *)
Lemma values_body_packet (fuel : nat) (l c : byte) (B rest : list byte)
  (out : list Line) :
  bz l = Py.len B -> bz l <= 169 -> bz c = checksum_of B ->
  values_body self (S fuel) (mkWorld (xaa :: xaa :: l :: B ++ c :: rest) out)
  = match get_payload_values self (S fuel) (payload_of B) (bz l) with
    | None => None
    | Some (Raise ChecksumFailed) => Some (Continue, mkWorld rest out)
    | Some (Raise e) => Some (Propagate e, mkWorld rest out)
    | Some (Ok result) =>
        if skip_raw_wave self && keys_eq self result ["raw_wave"]
        then Some (Continue, mkWorld rest out)
        else Some (Yield result, mkWorld rest out)
    end.
Proof.
  intros Hl Hle Hc. unfold values_body.
  rewrite wait_ready_now, read_int_cons by assumption.
  destruct (Z.gtb_spec (bz l) 169); [lia|].
  unfold values_try. rewrite Hl at 1. rewrite read_packet_spec by assumption.
  destruct (Z.eqb_spec (checksum_of B) (bz c)); [|congruence].
  destruct (get_payload_values self (S fuel) (payload_of B) (bz l))
    as [[result|ex]|]; [|destruct ex|]; try reflexivity.
  destruct (skip_raw_wave self && keys_eq self result ["raw_wave"]);
    reflexivity.
Qed.

Lemma values_body_inv (fuel : nat) (w w' : World) (step : Step) :
  values_body self fuel w = Some (step, w') ->
  consumed_to w w'
  /\ step <> Propagate ChecksumFailed
  /\ forall r : ReadingSet,
       step = Yield r ->
       exists (pre B : list byte) (l c : byte),
         incoming w = pre ++ xaa :: xaa :: l :: B ++ c :: incoming w'
         /\ bz l = Py.len B
         /\ bz l <= 169
         /\ bz c = checksum_of B
         /\ get_payload_values self fuel (payload_of B) (bz l)
            = Some (Ok r).
Proof.
  unfold values_body.
  destruct (_wait_for_ready_state self fuel w) as [[r0 w1]|] eqn:Hw;
    [|discriminate].
  apply wait_ready_inv in Hw; try assumption.
  destruct Hw as (_ & _ & pre & Hpre).
  assert (C1 : consumed_to w w1) by (exists (pre ++ [xaa; xaa]);
    now rewrite Hpre, <- app_assoc).
  destruct w1 as [[|l inc1] out1].
  { rewrite read_int_nil by assumption. intro H. inversion H; subst.
    repeat split; [assumption|discriminate|discriminate]. }
  rewrite read_int_cons by assumption.
  assert (C2 : consumed_to w (mkWorld inc1 out1)).
  { apply consumed_to_trans with (mkWorld (l :: inc1) out1); [exact C1|].
    now exists [l]. }
  destruct (Z.gtb_spec (bz l) 169) as [Hgt|Hle].
  { intro H. inversion H; subst.
    repeat split; [now apply consumed_to_print|discriminate|discriminate]. }
  unfold values_try.
  destruct (_read_packet self (bz l) (mkWorld inc1 out1))
    as [[payload|e] w3] eqn:P.
  - pose proof (read_packet_consumed _ _ _ _ _ P) as C3.
    pose proof (consumed_to_trans _ _ _ C2 C3) as C4.
    apply read_packet_inv in P; [|assumption].
    destruct P as (B & c & Hi & HlB & -> & Hc & _).
    cbn [incoming] in Hi, Hpre.
    assert (HB : bz l = Py.len B).
    { pose proof (bz_range l). unfold Py.len. lia. }
    assert (Hin : incoming w
                  = pre ++ xaa :: xaa :: l :: B ++ c :: incoming w3)
      by now rewrite Hpre, Hi.
    clear Hi Hpre C1 C2 C3.
    destruct (get_payload_values self fuel (payload_of B) (bz l))
      as [[result|e]|] eqn:G; [| |discriminate].
    + destruct (skip_raw_wave self && keys_eq self result ["raw_wave"]);
        intro H; inversion H; subst;
        (split; [assumption|]);
        (split; [discriminate|]); intros r Hr; [discriminate|].
      inversion Hr; subst. exists pre, B, l, c.
      repeat split; auto; lia.
    + destruct e; intro H; inversion H; subst;
        (split; [assumption|]); (split; discriminate).
  - apply read_packet_consumed in P.
    pose proof (consumed_to_trans _ _ _ C2 P) as C4. clear C1 C2 P Hpre.
    destruct e; intro H; inversion H; subst;
      (split; [assumption|]); (split; discriminate).
Qed.

Lemma values_unfold (fuel : nat) (w : World) :
  values self (S fuel) w
  = match values_body self (S fuel) w with
    | None => ([], Running, w)
    | Some (Yield result, w) =>
        let '(ys, stop, w) := values self fuel w in
        (result :: ys, stop, w)
    | Some (Continue, w) => values self fuel w
    | Some (Propagate e, w) => ([], Raised e, w)
    end.
Proof. cbn [values]. now rewrite Hopen. Qed.

(** On a dry line the generator waits for ever. *)
Lemma values_dry (fuel : nat) (out : list Line) :
  values self fuel (mkWorld [] out) = ([], Running, mkWorld [] out).
Proof.
  destruct fuel as [|fuel]; [reflexivity|].
  cbn [values]. rewrite Hopen. unfold values_body.
  now rewrite wait_ready_dry.
Qed.

Lemma values_inv :
  forall (fuel : nat) (w w' : World) (ys : list ReadingSet) (stop : Stop),
    values self fuel w = (ys, stop, w') ->
    Forall (decodes_packet_of self (incoming w)) ys
    /\ stop <> Raised ChecksumFailed
    /\ consumed_to w w'.
Proof.
  induction fuel as [|fuel IH]; intros w w' ys stop H.
  - inversion H; subst.
    repeat split; [constructor|discriminate|apply consumed_to_refl].
  - cbn [values] in H. rewrite Hopen in H.
    destruct (values_body self (S fuel) w) as [[step w1]|] eqn:Hb.
    + apply values_body_inv in Hb. destruct Hb as (C & Hne & Hy).
      destruct step as [r| |e].
      * destruct (values self fuel w1) as [[ys1 stop1] w2] eqn:Hv.
        inversion H; subst. apply IH in Hv.
        destruct Hv as (HF & Hs & C').
        repeat split; [|assumption|now apply consumed_to_trans with w1].
        constructor.
        -- destruct (Hy r eq_refl) as (pre & B & l & c & Hi & Hrest).
           now exists pre, B, (incoming w1), l, c, (S fuel).
        -- eapply Forall_impl; [|exact HF].
           intros r' Hr'. now apply decodes_packet_of_earlier with w1.
      * apply IH in H. destruct H as (HF & Hs & C').
        repeat split; [|assumption|now apply consumed_to_trans with w1].
        eapply Forall_impl; [|exact HF].
        intros r' Hr'. now apply decodes_packet_of_earlier with w1.
      * inversion H; subst.
        repeat split; [constructor|congruence|assumption].
    + inversion H; subst.
      repeat split; [constructor|discriminate|apply consumed_to_refl].
Qed.

End Stream.

(** C3: every reading set the generator yields is the decoding of a packet
    of the input whose length byte is at most 169 and whose checksum is
    right, and the generator never stops on [ChecksumFailed]; after a
    length byte above 169 the generator goes on with the byte that follows
    it, no payload byte read; after a wrong checksum it goes on with the
    byte that follows the checksum. *)
Theorem values_yields_only_valid_packets :
  forall (major : Z) (port_ : string) (baudrate_ timeout_ : Z) (skip : bool)
         (self : MindwaveAdapter),
    __init__ major port_ baudrate_ timeout_ skip = Ok self ->
    (forall (fuel : nat) (w w' : World) (ys : list ReadingSet) (stop : Stop),
        values self fuel w = (ys, stop, w') ->
        Forall (decodes_packet_of self (incoming w)) ys
        /\ stop <> Raised ChecksumFailed)
    /\ (forall (fuel : nat) (l : byte) (rest : list byte) (out : list Line),
          169 < bz l ->
          values self (S fuel) (mkWorld (xaa :: xaa :: l :: rest) out)
          = values self fuel
              (mkWorld rest (out ++ [InvalidLength (bz l)])))
    /\ (forall (fuel : nat) (l c : byte) (B rest : list byte)
               (out : list Line),
          bz l = Py.len B -> bz l <= 169 -> bz c <> checksum_of B ->
          values self (S fuel)
            (mkWorld (xaa :: xaa :: l :: B ++ c :: rest) out)
          = values self fuel
              (mkWorld rest
                 (out ++ [WrongChecksum (checksum_of B) (bz c)]))).
Proof.
  intros major port_ baudrate_ timeout_ skip self Hinit.
  pose proof (init_encode _ _ _ _ _ _ Hinit) as Henc.
  pose proof (init_open _ _ _ _ _ _ Hinit) as Hopen.
  split; [|split].
  - intros fuel w w' ys stop H.
    apply values_inv in H; try assumption. tauto.
  - intros fuel l rest out Hl. cbn [values]. rewrite Hopen.
    now rewrite values_body_oversize.
  - intros fuel l c B rest out Hl Hle Hc. cbn [values]. rewrite Hopen.
    now rewrite values_body_mismatch.
Qed.

Lemma values_yields_only_valid_packets_witness :
  values py3_adapter 3 (mkWorld [xaa; xaa; xc8; x01] [])
  = values py3_adapter 2 (mkWorld [x01] [InvalidLength 200]).
Proof.
  refine (proj1 (proj2 (values_yields_only_valid_packets 3 default_port
                          default_baudrate default_timeout
                          default_skip_raw_wave py3_adapter eq_refl))
            2%nat xc8 [x01] [] _).
  reflexivity.
Defined.

(** ** Skipping packets that hold the raw wave only *)

Lemma keys_eq_python3 (self : MindwaveAdapter) (result : ReadingSet)
  (l : list string) :
  runtime self = 3 -> keys_eq self result l = false.
Proof. unfold keys_eq. now intros ->. Qed.

Lemma keys_eq_python2 (self : MindwaveAdapter) (v : Value) :
  runtime self = 2 -> keys_eq self [("raw_wave", v)] ["raw_wave"] = true.
Proof. unfold keys_eq. now intros ->. Qed.

(** Under Python 2 a packet that decodes to the raw wave alone is not
    yielded when [skip_raw_wave] is set. *)
Lemma skip_raw_wave_python2 (self : MindwaveAdapter) (fuel : nat)
  (l c : byte) (B rest : list byte) (out : list Line) (v : Value) :
  (forall bs, encode self bs = Py.hex bs) ->
  is_open (sensor self) = true ->
  runtime self = 2 -> skip_raw_wave self = true ->
  bz l = Py.len B -> bz l <= 169 -> bz c = checksum_of B ->
  get_payload_values self (S fuel) (payload_of B) (bz l)
    = Some (Ok [("raw_wave", v)]) ->
  values self (S fuel) (mkWorld (xaa :: xaa :: l :: B ++ c :: rest) out)
  = values self fuel (mkWorld rest out).
Proof.
  intros Henc Hopen H2 Hskip Hl Hle Hc Hg. cbn [values]. rewrite Hopen.
  rewrite values_body_packet by assumption.
  now rewrite Hg, Hskip, keys_eq_python2.
Qed.

(** Under either interpreter a reading set whose keys are not exactly
    [raw_wave] is yielded as it is. *)
Lemma other_keys_are_yielded (self : MindwaveAdapter) (fuel : nat)
  (l c : byte) (B rest : list byte) (out : list Line) (result : ReadingSet) :
  (forall bs, encode self bs = Py.hex bs) ->
  is_open (sensor self) = true ->
  Py.keys result <> ["raw_wave"] ->
  bz l = Py.len B -> bz l <= 169 -> bz c = checksum_of B ->
  get_payload_values self (S fuel) (payload_of B) (bz l) = Some (Ok result) ->
  values self (S fuel) (mkWorld (xaa :: xaa :: l :: B ++ c :: rest) out)
  = (let '(ys, stop, w) := values self fuel (mkWorld rest out) in
     (result :: ys, stop, w)).
Proof.
  intros Henc Hopen Hk Hl Hle Hc Hg.
  rewrite values_unfold, values_body_packet by assumption. rewrite Hg.
  assert (E : keys_eq self result ["raw_wave"] = false).
  { unfold keys_eq. destruct (runtime self =? 2); [|reflexivity].
    destruct result as [|[k1 v1] [|kv result]]; [reflexivity| |];
      cbn [Py.keys map fst Py.list_eqb] in *;
      (destruct (String.eqb_spec k1 "raw_wave") as [->|]; [|reflexivity]).
    - now elim Hk.
    - reflexivity. }
  now rewrite E, andb_false_r.
Qed.

(** C6: under Python 3 [result.keys()] is a view and never equals the list
    ['raw_wave'], so [skip_raw_wave] skips nothing: the packet
    80 02 00 01, which decodes to the raw wave alone, is yielded by an
    adapter built with [skip_raw_wave=True]. *)
Theorem skip_raw_wave_skips_nothing_under_python3 :
  __init__ 3 default_port default_baudrate default_timeout true
    = Ok py3_adapter
  /\ skip_raw_wave py3_adapter = true
  /\ (forall fuel : nat,
        get_payload_values py3_adapter (S (S fuel))
          (payload_of [x80; x02; x00; x01]) 4
        = Some (Ok [("raw_wave", VInt 1)]))
  /\ (forall fuel : nat,
        values py3_adapter (S (S fuel))
          (mkWorld [xaa; xaa; x04; x80; x02; x00; x01; x7c] [])
        = ([[("raw_wave", VInt 1)]], Running, mkWorld [] []))
  /\ (forall (result : ReadingSet) (l : list string),
        keys_eq py3_adapter result l = false).
Proof.
  assert (Hg : forall fuel : nat,
             get_payload_values py3_adapter (S (S fuel))
               (payload_of [x80; x02; x00; x01]) 4
             = Some (Ok [("raw_wave", VInt 1)])) by (intro; reflexivity).
  split; [reflexivity|]. split; [reflexivity|]. split; [exact Hg|].
  split; [|intros; now apply keys_eq_python3].
  intro fuel.
  assert (Henc : forall bs, encode py3_adapter bs = Py.hex bs)
    by reflexivity.
  assert (Hopen : is_open (sensor py3_adapter) = true) by reflexivity.
  change [xaa; xaa; x04; x80; x02; x00; x01; x7c]
    with (xaa :: xaa :: x04 :: [x80; x02; x00; x01] ++ x7c :: []).
  rewrite values_unfold by assumption.
  rewrite values_body_packet by (assumption || reflexivity || discriminate).
  change (bz x04) with 4. rewrite Hg.
  change (skip_raw_wave py3_adapter
          && keys_eq py3_adapter [("raw_wave", VInt 1)] ["raw_wave"])
    with false.
  cbv iota.
  now rewrite values_dry.
Qed.

(** ** Tags *)

Lemma payload_getitem_0 (pre post : list byte) (b : byte) :
  Py.getitem (payload_of (pre ++ b :: post)) (Py.len pre) = Ok (Py.hex [b]).
Proof.
  rewrite payload_of_app. apply getitem_at. now rewrite len_payload_of.
Qed.

(** The key a tag byte is looked up under is the decimal reading of its
    hexadecimal text, so the keys of [codes] stand for the tag bytes 02,
    04, 05, 16, 80 and 83 in hexadecimal. *)
Lemma tag_key (t : byte) (key : Z) :
  Py.int (Py.hex [t]) 10 = Ok key ->
  In key [2; 4; 5; 16; 80; 83] ->
  In t recognised_tags.
Proof.
  destruct t; vm_compute; intros H1 H2; try discriminate H1;
    injection H1 as <-; intuition (discriminate || auto).
Qed.

Lemma lookup_absent (self : MindwaveAdapter) (key : Z) :
  ~ In key [2; 4; 5; 16; 80; 83] ->
  Py.lookup (codes self) key = Raise KeyError.
Proof.
  intro Hn. unfold codes. cbn [Py.lookup].
  repeat match goal with
         | |- context [?k =? key] =>
             destruct (Z.eqb_spec k key) as [E|_];
             [exfalso; apply Hn; rewrite <- E; simpl; tauto|]
         end.
  reflexivity.
Qed.

Lemma scalar_tag_body (self : MindwaveAdapter) (pre post : list byte)
  (t v : byte) (key : Z) (name : string) (result : ReadingSet) :
  Py.int (Py.hex [t]) 10 = Ok key ->
  Py.lookup (codes self) key = Ok (name, read_default_value) ->
  get_payload_values_body self (payload_of (pre ++ t :: v :: post))
    (Py.len pre) result
  = Ok (Py.len pre + 2, Py.setitem result name (VInt (bz v))).
Proof.
  intros Hk Hl. unfold get_payload_values_body.
  rewrite payload_getitem_0. cbn [bind]. rewrite Hk. cbn [bind].
  rewrite Hl. cbn [bind]. now rewrite read_default_value_ok.
Qed.

(** Whether the decimal reading of a byte's hexadecimal text exists is
    decided by whether the text has a letter. *)
Lemma int10_hex_letter (t : byte) :
  match Py.int (Py.hex [t]) 10 with
  | Ok _ => text_has_letter (Py.hex [t]) = false
  | Raise _ => text_has_letter (Py.hex [t]) = true
  end.
Proof. destruct t; vm_compute; reflexivity. Qed.

Lemma unknown_tag_body (self : MindwaveAdapter) (t : byte) :
  ~ In t recognised_tags ->
  forall (pre post : list byte) (result : ReadingSet),
    get_payload_values_body self (payload_of (pre ++ t :: post))
      (Py.len pre) result
    = Raise (if text_has_letter (Py.hex [t]) then ValueError else KeyError).
Proof.
  intros Hn pre post result. unfold get_payload_values_body.
  rewrite payload_getitem_0. cbn [bind].
  pose proof (int10_hex_letter t) as HL.
  destruct (Py.int (Py.hex [t]) 10) as [key|e] eqn:E; cbn [bind];
    rewrite HL.
  - rewrite lookup_absent; [reflexivity|].
    intro Hin. apply Hn. now apply tag_key with key.
  - apply int_raises in E. now subst.
Qed.

Lemma loop_more_fuel (self : MindwaveAdapter) (payload : list string)
  (length : Z) :
  forall (fuel k : nat) (i : Z) (result : ReadingSet) (r : res ReadingSet),
    get_payload_values_loop self fuel payload length i result = Some r ->
    get_payload_values_loop self (fuel + k) payload length i result = Some r.
Proof.
  induction fuel as [|fuel IH]; intros k i result r H; [discriminate|].
  cbn [Nat.add get_payload_values_loop] in *.
  destruct (i <? length); [|exact H].
  destruct (get_payload_values_body self payload i result)
    as [[j result']|]; [now apply IH|exact H].
Qed.

(** A state the loop goes through below the declared length: what the loop
    gives from there, the whole decode gives. *)
Lemma reaches_loop (self : MindwaveAdapter) (payload : list string)
  (length : Z) :
  forall (i : Z) (result : ReadingSet),
    decode_reaches self payload i result ->
    i < length ->
    forall (fuel : nat) (r : res ReadingSet),
      get_payload_values_loop self fuel payload length i result = Some r ->
      exists fuel0 : nat,
        get_payload_values_loop self fuel0 payload length 0 [] = Some r.
Proof.
  induction 1 as [|i result j result' Hr IH Hb]; intros Hlt fuel r H.
  - now exists fuel.
  - pose proof (get_payload_values_body_next _ _ _ _ _ _ Hb) as Hn.
    apply (IH ltac:(lia) (S fuel)). cbn [get_payload_values_loop].
    destruct (Z.ltb_spec i length); [|lia]. now rewrite Hb.
Qed.

Lemma decode_fails_where_reached (self : MindwaveAdapter)
  (payload : list string) (length i : Z) (result : ReadingSet) (e : exn) :
  decode_reaches self payload i result ->
  i < length ->
  get_payload_values_body self payload i result = Raise e ->
  forall k : nat,
    get_payload_values self (S (Z.to_nat length) + k) payload length
    = Some (Raise e).
Proof.
  intros Hr Hlt Hb k.
  destruct (reaches_loop self payload length i result Hr Hlt 1%nat (Raise e))
    as [fuel0 H0].
  { cbn [get_payload_values_loop].
    destruct (Z.ltb_spec i length); [|lia]. now rewrite Hb. }
  destruct (get_payload_values_loop_enough self payload length
              (S (Z.to_nat length)) 0 [] ltac:(lia)) as [r Hr'].
  unfold get_payload_values. rewrite Hr'. f_equal.
  specialize (Hr' fuel0).
  apply loop_more_fuel with (k := S (Z.to_nat length)) in H0.
  rewrite Nat.add_comm in H0. congruence.
Qed.

(** C7 as stated fails: the tag byte 16 (hexadecimal 10) is not decoded as
    [blink_strength] but raises [KeyError], and the tag byte 22
    (hexadecimal 16), which is outside 2, 4, 5, 16, 80, 83, is decoded as
    [blink_strength]. *)
Lemma tag_byte_16_counterexample :
  bz x10 = 16
  /\ get_payload_values py3_adapter 2 (payload_of [x10; x64]) 2
     = Some (Raise KeyError)
  /\ bz x16 = 22
  /\ ~ In (bz x16) [2; 4; 5; 16; 80; 83]
  /\ get_payload_values py3_adapter 2 (payload_of [x16; x64]) 2
     = Some (Ok [("blink_strength", VInt 100)]).
Proof.
  repeat split; try reflexivity.
  simpl. intuition discriminate.
Qed.

(** C7, amended: the field code of a tag byte is the decimal reading of its
    two hexadecimal digits.  At a payload position holding the tag byte 02,
    04, 05 or 16 (hexadecimal) the decode loop stores the byte after the
    tag, a value from 0 to 255, under [poor_signal], [attention],
    [meditation] or [blink_strength], and moves the index on by 2.  A tag
    byte other than 02, 04, 05, 16, 80, 83 (hexadecimal) makes the decode
    raise [KeyError] when its hexadecimal text has decimal digits only and
    [ValueError] when the text has a letter, at whatever position of the
    payload the decode loop comes to it, and the generator lets that
    exception out. *)
Theorem scalar_tags_are_read_in_hexadecimal :
  forall (major : Z) (port_ : string) (baudrate_ timeout_ : Z) (skip : bool)
         (self : MindwaveAdapter),
    __init__ major port_ baudrate_ timeout_ skip = Ok self ->
    forall (pre post : list byte) (v : byte) (result : ReadingSet),
      let i := Py.len pre in
      let turn (t : byte) :=
        get_payload_values_body self (payload_of (pre ++ t :: v :: post))
          i result in
      turn x02 = Ok (i + 2, Py.setitem result "poor_signal" (VInt (bz v)))
      /\ turn x04 = Ok (i + 2, Py.setitem result "attention" (VInt (bz v)))
      /\ turn x05 = Ok (i + 2, Py.setitem result "meditation" (VInt (bz v)))
      /\ turn x16
         = Ok (i + 2, Py.setitem result "blink_strength" (VInt (bz v)))
      /\ 0 <= bz v <= 255
      /\ forall t : byte,
           ~ In t recognised_tags ->
           let e := if text_has_letter (Py.hex [t]) then ValueError
                    else KeyError in
           get_payload_values_body self (payload_of (pre ++ t :: post))
             i result
           = Raise e
           /\ (forall (l c : byte) (B rest : list byte) (out : list Line)
                      (fuel : nat),
                 bz l = Py.len (t :: B) -> bz l <= 169 ->
                 bz c = checksum_of (t :: B) ->
                 get_payload_values self (S fuel) (payload_of (t :: B))
                   (bz l)
                 = Some (Raise e)
                 /\ values self (S fuel)
                      (mkWorld (xaa :: xaa :: l :: (t :: B) ++ c :: rest)
                         out)
                    = ([], Raised e, mkWorld rest out))
           /\ (forall (l c : byte) (rest : list byte) (out : list Line)
                      (k : nat),
                 decode_reaches self (payload_of (pre ++ t :: post))
                   i result ->
                 bz l = Py.len (pre ++ t :: post) -> bz l <= 169 ->
                 bz c = checksum_of (pre ++ t :: post) ->
                 get_payload_values self (S (Z.to_nat (bz l)) + k)
                   (payload_of (pre ++ t :: post)) (bz l)
                 = Some (Raise e)
                 /\ values self (S (Z.to_nat (bz l)) + k)
                      (mkWorld
                         (xaa :: xaa :: l :: (pre ++ t :: post) ++ c :: rest)
                         out)
                    = ([], Raised e, mkWorld rest out)).
Proof.
  intros major port_ baudrate_ timeout_ skip self Hinit pre post v result
         i turn.
  pose proof (init_encode _ _ _ _ _ _ Hinit) as Henc.
  pose proof (init_open _ _ _ _ _ _ Hinit) as Hopen.
  subst turn i. cbv beta.
  split; [now apply scalar_tag_body with (key := 2)|].
  split; [now apply scalar_tag_body with (key := 4)|].
  split; [now apply scalar_tag_body with (key := 5)|].
  split; [now apply scalar_tag_body with (key := 16)|].
  split.
  - pose proof (bz_range v). lia.
  - intros t Hn e.
    pose proof (unknown_tag_body self t Hn) as Hb.
    fold e in Hb.
    split; [apply Hb|]. split.
    + intros l c B rest out fuel Hl Hle Hc.
      assert (Hg : get_payload_values self (S fuel) (payload_of (t :: B))
                     (bz l)
                   = Some (Raise e)).
      { unfold get_payload_values. cbn [get_payload_values_loop].
        pose proof (len_nonneg B) as HB. rewrite len_cons in Hl.
        destruct (Z.ltb_spec 0 (bz l)); [|lia].
        change (t :: B) with ([] ++ t :: B).
        change 0 with (Py.len (@nil byte)) at 1. now rewrite Hb. }
      split; [exact Hg|].
      rewrite values_unfold by assumption.
      rewrite values_body_packet by assumption. rewrite Hg.
      subst e. destruct (text_has_letter (Py.hex [t])); reflexivity.
    + intros l c rest out k Hr Hl Hle Hc.
      assert (Hg : get_payload_values self (S (Z.to_nat (bz l)) + k)
                     (payload_of (pre ++ t :: post)) (bz l)
                   = Some (Raise e)).
      { apply decode_fails_where_reached with (Py.len pre) result;
          [assumption| |apply Hb].
        rewrite len_app, len_cons in Hl.
        pose proof (len_nonneg post). lia. }
      split; [exact Hg|].
      change (S (Z.to_nat (bz l)) + k)%nat
        with (S (Z.to_nat (bz l) + k)) in *.
      rewrite values_unfold by assumption.
      rewrite values_body_packet by assumption. rewrite Hg.
      subst e. destruct (text_has_letter (Py.hex [t])); reflexivity.
Qed.

Lemma scalar_tags_are_read_in_hexadecimal_witness :
  get_payload_values py3_adapter 4 (payload_of [x02; x64; x10]) 3
  = Some (Raise KeyError)
  /\ values py3_adapter 4
       (mkWorld [xaa; xaa; x03; x02; x64; x10; x89; x55] [])
     = ([], Raised KeyError, mkWorld [x55] []).
Proof.
  refine (proj2 (proj2
            (proj2 (proj2 (proj2 (proj2 (proj2
               (scalar_tags_are_read_in_hexadecimal 3 default_port
                  default_baudrate default_timeout default_skip_raw_wave
                  py3_adapter eq_refl [x02; x64] [] x00
                  [("poor_signal", VInt 100)]))))) x10 _))
            x03 x89 [x55] [] 0%nat _ eq_refl _ eq_refl).
  - simpl. intuition discriminate.
  - apply reaches_step with (i := 0) (result := []);
      [apply reaches_start|reflexivity].
  - discriminate.
Defined.

(** C10: on the payload [02] of declared length 1 the scalar routine looks
    for the value byte at index 1, past the end of the payload, and the
    decode fails with [IndexError]; the generator lets it out. *)
Theorem decode_truncated_field_raises_index_error :
  Py.len (payload_of [x02]) = 1
  /\ (forall (self : MindwaveAdapter) (fuel : nat),
        get_payload_values self (S fuel) (payload_of [x02]) 1
        = Some (Raise IndexError))
  /\ (forall fuel : nat,
        values py3_adapter (S fuel) (mkWorld [xaa; xaa; x01; x02; xfd] [])
        = ([], Raised IndexError, mkWorld [] [])).
Proof.
  split; [reflexivity|]. split; [intros; reflexivity|].
  intro fuel.
  assert (Henc : forall bs, encode py3_adapter bs = Py.hex bs)
    by reflexivity.
  assert (Hopen : is_open (sensor py3_adapter) = true) by reflexivity.
  change [xaa; xaa; x01; x02; xfd] with (xaa :: xaa :: x01 :: [x02] ++ [xfd]).
  rewrite values_unfold by assumption.
  rewrite values_body_packet by (assumption || reflexivity || discriminate).
  reflexivity.
Qed.

(** ** The constructor *)

(** C8: the constructor opens the port with the given port name and baud
    rate, but with a timeout of 10 whatever the [timeout] argument is. *)
Theorem init_opens_port_with_timeout_10 :
  forall (major : Z) (port_ : string) (baudrate_ timeout_ : Z) (skip : bool)
         (self : MindwaveAdapter),
    __init__ major port_ baudrate_ timeout_ skip = Ok self ->
    port (sensor self) = port_
    /\ baudrate (sensor self) = baudrate_
    /\ timeout (sensor self) = 10
    /\ skip_raw_wave self = skip.
Proof.
  intros major port_ baudrate_ timeout_ skip self Hinit.
  rewrite (init_sensor _ _ _ _ _ _ Hinit), (init_skip _ _ _ _ _ _ Hinit).
  repeat split.
Qed.

Lemma init_opens_port_with_timeout_10_witness :
  __init__ 3 default_port default_baudrate 5 true = Ok py3_adapter
  /\ timeout (sensor py3_adapter) = 10.
Proof.
  split; [reflexivity|].
  exact (proj1 (proj2 (proj2
           (init_opens_port_with_timeout_10 3 default_port default_baudrate
              5 true py3_adapter eq_refl)))).
Defined.


(** * Further properties *)

(** ** More on [_read] *)

Lemma hex_digits_of_byte (b : byte) :
  Py.digit_value (Py.hex_digit (Byte.to_N b / 16)) = Some (bz b / 16)
  /\ Py.digit_value (Py.hex_digit (Byte.to_N b mod 16)) = Some (bz b mod 16).
Proof. destruct b; vm_compute; split; reflexivity. Qed.

Lemma int_digits_hex :
  forall (bs : list byte) (acc : Z),
    Py.int_digits 16 acc (Py.hex bs)
    = Ok (fold_left (fun a b => a * 256 + bz b) bs acc).
Proof.
  induction bs as [|b bs IH]; intro acc; [reflexivity|].
  cbn [Py.hex Py.int_digits fold_left].
  destruct (hex_digits_of_byte b) as [-> ->].
  pose proof (bz_range b) as Hb.
  assert (E1 : (bz b / 16 <? 16) = true).
  { apply Z.ltb_lt. apply Z.div_lt_upper_bound; lia. }
  assert (E2 : (bz b mod 16 <? 16) = true).
  { apply Z.ltb_lt. apply Z.mod_pos_bound. lia. }
  rewrite E1, E2, IH. do 2 f_equal.
  pose proof (Z.div_mod (bz b) 16 ltac:(lia)). lia.
Qed.

Lemma hex_length (bs : list byte) :
  String.length (Py.hex bs) = (2 * List.length bs)%nat.
Proof.
  induction bs as [|b bs IH]; [reflexivity|].
  cbn [Py.hex String.length List.length]. rewrite IH. lia.
Qed.

Lemma be_fold_bounds :
  forall (bs : list byte) (acc : Z),
    0 <= acc ->
    acc * 256 ^ Py.len bs
    <= fold_left (fun a b => a * 256 + bz b) bs acc
    < (acc + 1) * 256 ^ Py.len bs.
Proof.
  induction bs as [|b bs IH]; intros acc Hacc.
  - cbn. lia.
  - cbn [fold_left]. rewrite len_cons.
    pose proof (len_nonneg bs) as Hn. pose proof (bz_range b) as Hb.
    rewrite Z.pow_add_r by lia. change (256 ^ 1) with 256.
    specialize (IH (acc * 256 + bz b) ltac:(lia)).
    assert (HP : 0 < 256 ^ Py.len bs) by (apply Z.pow_pos_nonneg; lia).
    nia.
Qed.

(** X2: [_read(n, to_int=True)] on a line that holds the [n >= 1] bytes
    [bs] returns their big-endian value, below [256 ^ n], and leaves the
    bytes after them; the text [_read(n)] returns for them has [2 n]
    characters.  On a dry line the read times out and the conversion raises
    [ValueError]. *)
Theorem read_int_is_big_endian :
  forall (major : Z) (port_ : string) (baudrate_ timeout_ : Z) (skip : bool)
         (self : MindwaveAdapter),
    __init__ major port_ baudrate_ timeout_ skip = Ok self ->
    forall (bs rest : list byte) (out : list Line) (n : Z),
      (bs <> [] ->
       _read_int self (Py.len bs) (mkWorld (bs ++ rest) out)
       = (Ok (be_value bs), mkWorld rest out))
      /\ 0 <= be_value bs < 256 ^ Py.len bs
      /\ fst (_read self (Py.len bs) (mkWorld (bs ++ rest) out)) = Py.hex bs
      /\ String.length (Py.hex bs) = (2 * List.length bs)%nat
      /\ _read_int self n (mkWorld [] out)
         = (Raise ValueError, mkWorld [] out).
Proof.
  intros major port_ baudrate_ timeout_ skip self Hinit bs rest out n.
  pose proof (init_encode _ _ _ _ _ _ Hinit) as Henc.
  assert (Hr : _read self (Py.len bs) (mkWorld (bs ++ rest) out)
               = (Py.hex bs, mkWorld rest out)).
  { unfold _read, Serial_read. cbn [incoming stdout].
    unfold Py.len. rewrite Nat2Z.id.
    rewrite firstn_app, firstn_all, Nat.sub_diag, skipn_app, skipn_all,
      Nat.sub_diag. cbn [firstn skipn app]. now rewrite app_nil_r, Henc. }
  split; [|split; [|split; [|split]]].
  - intro Hne. unfold _read_int. rewrite Hr.
    destruct bs as [|b bs]; [contradiction|].
    unfold Py.int, be_value. cbn [Py.hex].
    change (String (Py.hex_digit (Byte.to_N b / 16))
              (String (Py.hex_digit (Byte.to_N b mod 16)) (Py.hex bs)))
      with (Py.hex (b :: bs)).
    now rewrite int_digits_hex.
  - pose proof (be_fold_bounds bs 0 ltac:(lia)) as H. unfold be_value. lia.
  - now rewrite Hr.
  - apply hex_length.
  - unfold _read_int, _read, Serial_read. cbn [incoming stdout].
    rewrite firstn_nil, skipn_nil, Henc. reflexivity.
Qed.

Lemma read_int_is_big_endian_witness :
  _read_int py3_adapter 2 (mkWorld [x01; x02; x03] [])
  = (Ok 258, mkWorld [x03] []).
Proof.
  refine (proj1 (read_int_is_big_endian 3 default_port default_baudrate
                   default_timeout default_skip_raw_wave py3_adapter
                   eq_refl [x01; x02] [x03] [] 0) _).
  discriminate.
Defined.

(** ** More on the sync loop *)

Lemma hex_not_aa (b : byte) :
  String.eqb (Py.hex [b]) "aa" = false -> b <> xaa.
Proof. intros H ->. vm_compute in H. discriminate. Qed.

Section SyncGroups.

Variable self : MindwaveAdapter.
Hypothesis Henc : forall bs, encode self bs = Py.hex bs.
Hypothesis Hopen : is_open (sensor self) = true.

Lemma wait_ready_inv_groups :
  forall (fuel : nat) (w w' : World) (r : Ready),
    _wait_for_ready_state self fuel w = Some (r, w') ->
    exists groups : list (byte * byte * byte),
      Forall no_sync groups
      /\ incoming w = triples groups ++ xaa :: xaa :: incoming w'
      /\ (List.length groups < fuel)%nat.
Proof.
  induction fuel as [|fuel IH]; intros [inc out] w' r H; [discriminate|].
  destruct inc as [|a [|b inc]].
  - rewrite wait_ready_dry in H by assumption. discriminate.
  - cbn [_wait_for_ready_state] in H. rewrite Hopen in H.
    rewrite read_cons, !read_nil in H by assumption.
    rewrite String.eqb_sym in H. cbn [String.eqb] in H.
    rewrite orb_true_r in H. rewrite wait_ready_dry in H by assumption.
    discriminate.
  - destruct (String.eqb (Py.hex [a]) "aa") eqn:Ea;
      [destruct (String.eqb (Py.hex [b]) "aa") eqn:Eb|].
    + apply hex_aa in Ea. apply hex_aa in Eb. subst a b.
      rewrite wait_ready_now in H by assumption. inversion H; subst.
      exists []. cbn. repeat split; [constructor|lia].
    + assert (Hg : a <> xaa \/ b <> xaa) by (right; now apply hex_not_aa).
      destruct inc as [|c inc].
      * cbn [_wait_for_ready_state] in H. rewrite Hopen in H.
        rewrite !read_cons, read_nil in H by assumption.
        rewrite Ea, Eb in H. cbn [negb orb] in H.
        rewrite wait_ready_dry in H by assumption. discriminate.
      * rewrite wait_ready_stride in H by assumption.
        apply IH in H. destruct H as (groups & HF & Hi & Hl).
        exists ((a, b, c) :: groups). cbn in *. rewrite Hi.
        repeat split; [now constructor|lia].
    + assert (Hg : a <> xaa \/ b <> xaa) by (left; now apply hex_not_aa).
      destruct inc as [|c inc].
      * cbn [_wait_for_ready_state] in H. rewrite Hopen in H.
        rewrite !read_cons, read_nil in H by assumption.
        rewrite Ea in H. cbn [negb orb] in H.
        rewrite wait_ready_dry in H by assumption. discriminate.
      * rewrite wait_ready_stride in H by assumption.
        apply IH in H. destruct H as (groups & HF & Hi & Hl).
        exists ((a, b, c) :: groups). cbn in *. rewrite Hi.
        repeat split; [now constructor|lia].
Qed.

End SyncGroups.

(** X3: [_wait_for_ready_state] returns exactly when the bytes before the
    first AA AA it can see make up whole groups of three, none of which
    starts with AA AA; it then returns [True], positioned right after those
    sync bytes, having printed nothing. *)
Theorem wait_for_ready_state_returns_iff_aligned :
  forall (major : Z) (port_ : string) (baudrate_ timeout_ : Z) (skip : bool)
         (self : MindwaveAdapter),
    __init__ major port_ baudrate_ timeout_ skip = Ok self ->
    forall (w w' : World),
      ((exists (fuel : nat) (r : Ready),
           _wait_for_ready_state self fuel w = Some (r, w'))
       <-> (stdout w' = stdout w
            /\ exists groups : list (byte * byte * byte),
                 Forall no_sync groups
                 /\ incoming w
                    = triples groups ++ xaa :: xaa :: incoming w'))
      /\ forall (fuel : nat) (r : Ready),
           _wait_for_ready_state self fuel w = Some (r, w') -> r = ReadyTrue.
Proof.
  intros major port_ baudrate_ timeout_ skip self Hinit w w'.
  pose proof (init_encode _ _ _ _ _ _ Hinit) as Henc.
  pose proof (init_open _ _ _ _ _ _ Hinit) as Hopen.
  split; [split|].
  - intros (fuel & r & H).
    pose proof (wait_ready_inv self Henc Hopen _ _ _ _ H) as (_ & Ho & _).
    split; [exact Ho|].
    apply wait_ready_inv_groups in H; try assumption.
    destruct H as (groups & HF & Hi & _). now exists groups.
  - intros (Ho & groups & HF & Hi).
    exists (List.length groups + 1)%nat, ReadyTrue.
    destruct w as [inc out], w' as [inc' out']. cbn in Ho, Hi. subst.
    now apply wait_ready_aligned.
  - intros fuel r H.
    now apply (wait_ready_inv self Henc Hopen) in H.
Qed.

Lemma wait_for_ready_state_returns_iff_aligned_witness :
  exists (fuel : nat) (r : Ready),
    _wait_for_ready_state py3_adapter fuel
      (mkWorld [x00; xaa; x01; xaa; xaa; x02] [])
    = Some (r, mkWorld [x02] []).
Proof.
  apply (proj1 (wait_for_ready_state_returns_iff_aligned 3 default_port
                  default_baudrate default_timeout default_skip_raw_wave
                  py3_adapter eq_refl
                  (mkWorld [x00; xaa; x01; xaa; xaa; x02] [])
                  (mkWorld [x02] []))).
  split; [reflexivity|].
  exists [(x00, xaa, x01)]. split; [|reflexivity].
  constructor; [left; discriminate|constructor].
Defined.

(** ** More on [_read_packet] *)

Lemma checksum_iff_sum (B : list byte) (c : byte) :
  (checksum_of B =? bz c) = ((byte_sum B + bz c) mod 256 =? 255).
Proof.
  rewrite checksum_of_eq. pose proof (bz_range c) as Hc.
  destruct (Z.eqb_spec (255 - byte_sum B mod 256) (bz c)) as [E|E];
    destruct (Z.eqb_spec ((byte_sum B + bz c) mod 256) 255) as [E'|E'];
    try reflexivity; exfalso; revert E E';
    generalize (byte_sum B); intros s E E';
    Z.div_mod_to_equations; lia.
Qed.

(** X4: [_read_packet] accepts a packet exactly when the sum of the payload
    bytes and the checksum byte has all of its low eight bits set. *)
Theorem read_packet_accepts_iff_sum_is_ff :
  forall (major : Z) (port_ : string) (baudrate_ timeout_ : Z) (skip : bool)
         (self : MindwaveAdapter),
    __init__ major port_ baudrate_ timeout_ skip = Ok self ->
    forall (B : list byte) (c : byte) (rest : list byte) (out : list Line),
      _read_packet self (Py.len B) (mkWorld (B ++ c :: rest) out)
      = if (byte_sum B + bz c) mod 256 =? 255
        then (Ok (payload_of B), mkWorld rest out)
        else (Raise ChecksumFailed,
              mkWorld rest (out ++ [WrongChecksum (checksum_of B) (bz c)])).
Proof.
  intros major port_ baudrate_ timeout_ skip self Hinit B c rest out.
  pose proof (init_encode _ _ _ _ _ _ Hinit) as Henc.
  rewrite read_packet_spec by assumption. now rewrite checksum_iff_sum.
Qed.

Lemma read_packet_accepts_iff_sum_is_ff_witness :
  _read_packet py3_adapter 2 (mkWorld [x02; x64; x99] [])
  = (Ok ["02"; "64"], mkWorld [] []).
Proof.
  exact (read_packet_accepts_iff_sum_is_ff 3 default_port default_baudrate
           default_timeout default_skip_raw_wave py3_adapter eq_refl
           [x02; x64] x99 [] []).
Defined.

Lemma payload_of_lengths (B : list byte) :
  Forall (fun s => String.length s = 2%nat) (payload_of B).
Proof.
  induction B as [|b B IH]; constructor; [reflexivity|exact IH].
Qed.

(** X5: when [_read_packet] returns, it has read exactly [length] payload
    bytes and one checksum byte, the list it returns has [length] elements,
    each the two-character hexadecimal text of a payload byte in order, and
    it has printed nothing. *)
Theorem read_packet_result_shape :
  forall (major : Z) (port_ : string) (baudrate_ timeout_ : Z) (skip : bool)
         (self : MindwaveAdapter),
    __init__ major port_ baudrate_ timeout_ skip = Ok self ->
    forall (length : Z) (w w' : World) (payload : list string),
      _read_packet self length w = (Ok payload, w') ->
      exists (B : list byte) (c : byte),
        incoming w = B ++ c :: incoming w'
        /\ payload = payload_of B
        /\ List.length payload = Z.to_nat length
        /\ Forall (fun s => String.length s = 2%nat) payload
        /\ bz c = checksum_of B
        /\ stdout w' = stdout w.
Proof.
  intros major port_ baudrate_ timeout_ skip self Hinit length w w' payload H.
  pose proof (init_encode _ _ _ _ _ _ Hinit) as Henc.
  apply read_packet_inv in H; [|assumption].
  destruct H as (B & c & Hi & Hl & -> & Hc & Ho).
  exists B, c. repeat split; try assumption.
  - unfold payload_of. now rewrite length_map.
  - apply payload_of_lengths.
Qed.

Lemma read_packet_result_shape_witness :
  exists (B : list byte) (c : byte),
    [x02; x64; x99; xaa] = B ++ c :: [xaa]
    /\ ["02"; "64"] = payload_of B
    /\ List.length ["02"; "64"] = Z.to_nat 2
    /\ Forall (fun s => String.length s = 2%nat) ["02"; "64"]
    /\ bz c = checksum_of B
    /\ @nil Line = [].
Proof.
  exact (read_packet_result_shape 3 default_port default_baudrate
           default_timeout default_skip_raw_wave py3_adapter eq_refl
           2 (mkWorld [x02; x64; x99; xaa] []) (mkWorld [xaa] [])
           ["02"; "64"] eq_refl).
Defined.

Lemma read_packet_loop_short (self : MindwaveAdapter) :
  (forall bs, encode self bs = Py.hex bs) ->
  forall (B : list byte) (range_ : list Z) (checksum : Z)
         (result : list string) (out : list Line),
    (List.length B < List.length range_)%nat ->
    _read_packet_loop self range_ checksum result (mkWorld B out)
    = (Raise ValueError, mkWorld [] out).
Proof.
  intro Henc.
  induction B as [|b B IH]; intros [|k range_] checksum result out Hl;
    cbn [List.length] in Hl; try lia.
  - cbn [_read_packet_loop]. now rewrite read_nil.
  - cbn [_read_packet_loop]. rewrite read_cons, int16_hex by assumption.
    apply IH. lia.
Qed.

Lemma read_packet_short (self : MindwaveAdapter) (B : list byte)
  (length : Z) (out : list Line) :
  (forall bs, encode self bs = Py.hex bs) ->
  Py.len B <= length ->
  _read_packet self length (mkWorld B out)
  = (Raise ValueError, mkWorld [] out).
Proof.
  intros Henc Hl. unfold _read_packet.
  destruct (Z.eq_dec (Py.len B) length) as [E|E].
  - subst length. rewrite <- (app_nil_r B) at 2.
    rewrite read_packet_loop_ok
      by (assumption || (rewrite range_length; unfold Py.len; lia)).
    now rewrite read_int_nil.
  - rewrite read_packet_loop_short; try assumption; [reflexivity|].
    rewrite range_length. unfold Py.len in *. lia.
Qed.

(** X6: when the line runs dry before the payload and its checksum byte
    are complete, [_read_packet] raises [ValueError] and not
    [ChecksumFailed]; it has used up the line and printed nothing. *)
Theorem read_packet_on_short_line_raises_value_error :
  forall (major : Z) (port_ : string) (baudrate_ timeout_ : Z) (skip : bool)
         (self : MindwaveAdapter),
    __init__ major port_ baudrate_ timeout_ skip = Ok self ->
    forall (B : list byte) (length : Z) (out : list Line),
      Py.len B <= length ->
      _read_packet self length (mkWorld B out)
      = (Raise ValueError, mkWorld [] out).
Proof.
  intros major port_ baudrate_ timeout_ skip self Hinit B length out Hl.
  apply read_packet_short; [|assumption].
  apply (init_encode _ _ _ _ _ _ Hinit).
Qed.

Lemma read_packet_on_short_line_raises_value_error_witness :
  _read_packet py3_adapter 4 (mkWorld [x80; x02; x00] [])
  = (Raise ValueError, mkWorld [] []).
Proof.
  refine (read_packet_on_short_line_raises_value_error 3 default_port
            default_baudrate default_timeout default_skip_raw_wave
            py3_adapter eq_refl [x80; x02; x00] 4 [] _).
  discriminate.
Defined.

Lemma byte_sum_permutation (B B' : list byte) :
  Permutation B B' -> byte_sum B = byte_sum B'.
Proof.
  induction 1 as [|b B B' _ IH|a b B|B B' B'' _ IH1 _ IH2].
  - reflexivity.
  - rewrite !byte_sum_cons. lia.
  - rewrite !byte_sum_cons. lia.
  - lia.
Qed.

(** X7: the checksum does not see the order of the payload bytes: a packet
    whose payload is a rearrangement of an accepted one, with the same
    checksum byte, is accepted as well. *)
Theorem read_packet_accepts_rearranged_payload :
  forall (major : Z) (port_ : string) (baudrate_ timeout_ : Z) (skip : bool)
         (self : MindwaveAdapter),
    __init__ major port_ baudrate_ timeout_ skip = Ok self ->
    forall (B B' : list byte) (c : byte) (rest : list byte)
           (out : list Line),
      Permutation B B' ->
      _read_packet self (Py.len B) (mkWorld (B ++ c :: rest) out)
        = (Ok (payload_of B), mkWorld rest out) ->
      _read_packet self (Py.len B') (mkWorld (B' ++ c :: rest) out)
        = (Ok (payload_of B'), mkWorld rest out).
Proof.
  intros major port_ baudrate_ timeout_ skip self Hinit B B' c rest out HP.
  pose proof (init_encode _ _ _ _ _ _ Hinit) as Henc.
  rewrite !read_packet_spec by assumption.
  unfold checksum_of. rewrite (byte_sum_permutation _ _ HP).
  destruct (_ =? bz c); [reflexivity|discriminate].
Qed.

Lemma read_packet_accepts_rearranged_payload_witness :
  _read_packet py3_adapter 2 (mkWorld [x64; x02; x99] [])
  = (Ok ["64"; "02"], mkWorld [] []).
Proof.
  refine (read_packet_accepts_rearranged_payload 3 default_port
            default_baudrate default_timeout default_skip_raw_wave
            py3_adapter eq_refl [x02; x64] [x64; x02] x99 [] [] _ eq_refl).
  apply perm_swap.
Defined.

(** ** More on the decode routines *)

Lemma slice_tail {A : Type} (l1 l2 : list A) (s e : Z) :
  s = Py.len l1 -> Py.len l1 + Py.len l2 <= e ->
  Py.slice (l1 ++ l2) s e = l2.
Proof.
  intros -> He. unfold Py.slice, Py.clip. rewrite len_app.
  pose proof (len_nonneg l1). pose proof (len_nonneg l2).
  assert (E1 : (Py.len l1 <? 0) = false) by (apply Z.ltb_ge; lia).
  assert (E2 : (e <? 0) = false) by (apply Z.ltb_ge; lia).
  cbv zeta. rewrite E1, E2.
  rewrite (Z.min_l (Py.len l1)), (Z.min_r e) by lia.
  replace (Py.len l1 + Py.len l2 - Py.len l1) with (Py.len l2) by lia.
  unfold Py.len. rewrite !Nat2Z.id.
  rewrite skipn_app, skipn_all, Nat.sub_diag. cbn [skipn app].
  apply firstn_all.
Qed.

Lemma big_endian_short (l : list Z) :
  (List.length l < 3)%nat -> _big_endian l = Raise IndexError.
Proof.
  destruct l as [|x [|y [|z l]]]; cbn [List.length]; intro H;
    try reflexivity; lia.
Qed.

Lemma be3_range (t : byte * byte * byte) : 0 <= be3 t < 16777216.
Proof.
  destruct t as [[a b] c]. unfold be3.
  pose proof (bz_range a). pose proof (bz_range b). pose proof (bz_range c).
  lia.
Qed.

(** X8: on three byte values [_big_endian] returns a number below [2^24]
    from which the three bytes can be read back; elements after the third
    are ignored, and a list of fewer than three raises [IndexError]. *)
Theorem big_endian_of_three_bytes :
  forall (a b c : byte) (more l : list Z),
    (exists v : Z,
        _big_endian (bz a :: bz b :: bz c :: more) = Ok v
        /\ 0 <= v < 2 ^ 24
        /\ v / 65536 = bz a
        /\ (v / 256) mod 256 = bz b
        /\ v mod 256 = bz c)
    /\ ((List.length l < 3)%nat -> _big_endian l = Raise IndexError).
Proof.
  intros a b c more l. split; [|apply big_endian_short].
  exists (bz a * 65536 + bz b * 256 + bz c).
  pose proof (bz_range a). pose proof (bz_range b). pose proof (bz_range c).
  split; [reflexivity|].
  change (2 ^ 24) with 16777216.
  repeat split; try lia.
  - Z.div_mod_to_equations. lia.
  - Z.div_mod_to_equations. lia.
  - Z.div_mod_to_equations. lia.
Qed.

Lemma big_endian_of_three_bytes_witness :
  _big_endian [1; 2] = Raise IndexError.
Proof.
  refine (proj2 (big_endian_of_three_bytes x00 x00 x00 [] [1; 2]) _).
  cbn. lia.
Defined.

(** X9: for a length byte whose hexadecimal text has decimal digits only,
    the composite routine turns the 24 bytes after it into the eight waves
    of the class, in order, each the big-endian value of its three bytes
    and below [2^24], and moves the index on by 26, whatever the length
    byte says. *)
Theorem asic_eeg_decodes_eight_waves :
  forall (major : Z) (port_ : string) (baudrate_ timeout_ : Z) (skip : bool)
         (self : MindwaveAdapter),
    __init__ major port_ baudrate_ timeout_ skip = Ok self ->
    forall (pre post : list byte) (tag len_byte : byte) (n : Z)
           (t0 t1 t2 t3 t4 t5 t6 t7 : byte * byte * byte),
      Py.int (Py.hex [len_byte]) 10 = Ok n ->
      asic_eeg self
        (payload_of (pre ++ tag :: len_byte ::
                     triples [t0; t1; t2; t3; t4; t5; t6; t7] ++ post))
        (Py.len pre)
      = Ok (VDict [("delta", be3 t0); ("theta", be3 t1);
                   ("low_alpha", be3 t2); ("high_alpha", be3 t3);
                   ("low_beta", be3 t4); ("high_beta", be3 t5);
                   ("low_gamma", be3 t6); ("mid_gamma", be3 t7)],
            Py.len pre + 26)
      /\ Forall (fun t => 0 <= be3 t < 2 ^ 24)
           [t0; t1; t2; t3; t4; t5; t6; t7].
Proof.
  intros major port_ baudrate_ timeout_ skip self Hinit pre post tag len_byte
         n t0 t1 t2 t3 t4 t5 t6 t7 Hn.
  split.
  - apply asic_eeg_ok with n; [|assumption].
    apply (init_waves _ _ _ _ _ _ Hinit).
  - change (2 ^ 24) with 16777216.
    repeat constructor; apply be3_range.
Qed.

Lemma asic_eeg_decodes_eight_waves_witness :
  asic_eeg py3_adapter
    (payload_of (x83 :: x03 ::
                 triples [(x00, x00, x01); (x00, x00, x02); (x00, x00, x03);
                          (x00, x00, x04); (x00, x00, x05); (x00, x00, x06);
                          (x00, x00, x07); (x01, x00, x00)])) 0
  = Ok (VDict [("delta", 1); ("theta", 2); ("low_alpha", 3);
               ("high_alpha", 4); ("low_beta", 5); ("high_beta", 6);
               ("low_gamma", 7); ("mid_gamma", 65536)], 26).
Proof.
  exact (proj1 (asic_eeg_decodes_eight_waves 3 default_port default_baudrate
                  default_timeout default_skip_raw_wave py3_adapter eq_refl
                  [] [] x83 x03 3
                  (x00, x00, x01) (x00, x00, x02) (x00, x00, x03)
                  (x00, x00, x04) (x00, x00, x05) (x00, x00, x06)
                  (x00, x00, x07) (x01, x00, x00) eq_refl)).
Defined.

Lemma asic_eeg_loop_short (self : MindwaveAdapter) :
  forall (range_ : list Z) (pre data : list byte)
         (result : list (string * Z)),
    Forall (fun count => exists wave, Py.getitem (waves self) count = Ok wave)
      range_ ->
    (List.length data < 3 * List.length range_)%nat ->
    asic_eeg_loop self (payload_of (pre ++ data)) range_
      (Py.len pre) (Py.len pre + 3) result
    = Raise IndexError.
Proof.
  induction range_ as [|count range_ IH]; intros pre data result HF Hl;
    [cbn in Hl; lia|].
  inversion HF as [|? ? [wave Hw] HF']; subst.
  cbn [asic_eeg_loop]. rewrite Hw. cbn [bind].
  destruct data as [|a [|b [|c data]]].
  - rewrite payload_of_app, slice_tail;
      [|now rewrite len_payload_of
       |rewrite !len_payload_of; unfold Py.len; cbn [List.length]; lia].
    reflexivity.
  - rewrite payload_of_app, slice_tail;
      [|now rewrite len_payload_of
       |rewrite !len_payload_of; unfold Py.len; cbn [List.length]; lia].
    rewrite comprehension_int16. reflexivity.
  - rewrite payload_of_app, slice_tail;
      [|now rewrite len_payload_of
       |rewrite !len_payload_of; unfold Py.len; cbn [List.length]; lia].
    rewrite comprehension_int16. reflexivity.
  - change (a :: b :: c :: data) with ([a; b; c] ++ data).
    rewrite payload_of_app, (payload_of_app [a; b; c]).
    rewrite slice_mid;
      [|now rewrite len_payload_of|now rewrite !len_payload_of].
    rewrite comprehension_int16. cbn [bind map].
    rewrite big_endian_3. cbn [bind].
    rewrite <- !payload_of_app. rewrite app_assoc.
    replace (Py.len pre + 3) with (Py.len (pre ++ [a; b; c]))
      by (rewrite len_app; reflexivity).
    apply IH; [assumption|]. cbn [List.length] in Hl. lia.
Qed.

(** X10: when fewer than 24 bytes follow the length byte of a composite
    field, the composite routine raises [IndexError] if the hexadecimal
    text of the length byte has decimal digits only, and [ValueError] if
    that text has a letter, since the length byte is parsed first; it
    raises [IndexError] too when the payload ends with the tag. *)
Theorem asic_eeg_on_short_block_raises_index_error :
  forall (major : Z) (port_ : string) (baudrate_ timeout_ : Z) (skip : bool)
         (self : MindwaveAdapter),
    __init__ major port_ baudrate_ timeout_ skip = Ok self ->
    forall (pre data : list byte) (tag len_byte : byte),
      ((List.length data < 24)%nat ->
       asic_eeg self (payload_of (pre ++ tag :: len_byte :: data))
         (Py.len pre)
       = Raise (if text_has_letter (Py.hex [len_byte]) then ValueError
                else IndexError))
      /\ asic_eeg self (payload_of (pre ++ [tag])) (Py.len pre)
         = Raise IndexError.
Proof.
  intros major port_ baudrate_ timeout_ skip self Hinit pre data tag
         len_byte.
  pose proof (init_waves _ _ _ _ _ _ Hinit) as Hw.
  split.
  - intro Hl. pose proof (int10_hex_letter len_byte) as HL.
    destruct (Py.int (Py.hex [len_byte]) 10) as [n|e] eqn:Hn; rewrite HL.
    + unfold asic_eeg. cbv zeta.
      rewrite payload_getitem_1 by reflexivity. cbn [bind]. rewrite Hn.
      cbn [bind].
      change (pre ++ tag :: len_byte :: data)
        with (pre ++ [tag; len_byte] ++ data).
      rewrite app_assoc.
      replace (Py.len pre + 1 + 1) with (Py.len (pre ++ [tag; len_byte]))
        by (rewrite len_app; unfold Py.len; simpl; lia).
      rewrite asic_eeg_loop_short;
        [reflexivity| |change (List.length (Py.range 0 8)) with 8%nat; lia].
      rewrite Hw. change (Py.range 0 8) with [0; 1; 2; 3; 4; 5; 6; 7].
      repeat constructor; eexists; reflexivity.
    + now apply asic_eeg_bad_length with e.
  - unfold asic_eeg. cbv zeta.
    rewrite getitem_past; [reflexivity|].
    rewrite len_payload_of, len_app. cbn. lia.
Qed.

Lemma asic_eeg_on_short_block_raises_index_error_witness :
  asic_eeg py3_adapter (payload_of [x83; x18; x00; x00; x01; x00]) 0
  = Raise IndexError
  /\ asic_eeg py3_adapter (payload_of [x83; x1a; x00; x00; x01; x00]) 0
     = Raise ValueError.
Proof.
  split.
  - refine (proj1 (asic_eeg_on_short_block_raises_index_error 3 default_port
                     default_baudrate default_timeout default_skip_raw_wave
                     py3_adapter eq_refl [] [x00; x00; x01; x00] x83 x18) _).
    cbn. lia.
  - refine (proj1 (asic_eeg_on_short_block_raises_index_error 3 default_port
                     default_baudrate default_timeout default_skip_raw_wave
                     py3_adapter eq_refl [] [x00; x00; x01; x00] x83 x1a) _).
    cbn. lia.
Defined.

(** X11: a scalar or raw-wave field cut off by the end of the payload:
    the scalar routine raises [IndexError] when the value byte is missing,
    the raw-wave routine raises [IndexError] when the length byte is
    missing and [ValueError] when the length byte is 2 but fewer than two
    data bytes follow. *)
Theorem truncated_fields_raise :
  forall (pre data : list byte) (tag : byte),
    read_default_value (payload_of (pre ++ [tag])) (Py.len pre)
      = Raise IndexError
    /\ raw_wave (payload_of (pre ++ [tag])) (Py.len pre) = Raise IndexError
    /\ ((List.length data < 2)%nat ->
        raw_wave (payload_of (pre ++ tag :: x02 :: data)) (Py.len pre)
        = Raise ValueError).
Proof.
  intros pre data tag.
  assert (Hpast : Py.getitem (payload_of (pre ++ [tag])) (Py.len pre + 1)
                  = Raise IndexError).
  { apply getitem_past. rewrite len_payload_of, len_app. cbn. lia. }
  split; [|split].
  - unfold read_default_value. cbv zeta. now rewrite Hpast.
  - unfold raw_wave. now rewrite Hpast.
  - intro Hl. unfold raw_wave.
    rewrite payload_getitem_1 by reflexivity. cbn [bind].
    change (Py.int (Py.hex ["002"%byte]) 10) with (Ok (A := Z) 2).
    cbn [bind]. change (negb (2 =? 2)) with false. cbv iota.
    change (pre ++ tag :: x02 :: data) with (pre ++ [tag; x02] ++ data).
    rewrite app_assoc, payload_of_app.
    rewrite slice_tail.
    + rewrite comprehension_int16. cbn [bind].
      destruct data as [|a [|b data]]; try reflexivity.
      cbn [List.length] in Hl. lia.
    + rewrite len_payload_of, len_app. reflexivity.
    + rewrite !len_payload_of, len_app. unfold Py.len.
      cbn [List.length]. lia.
Qed.

Lemma truncated_fields_raise_witness :
  raw_wave (payload_of [x80; x02; x7f]) 0 = Raise ValueError.
Proof.
  refine (proj2 (proj2 (truncated_fields_raise [] [x7f] x80)) _).
  cbn. lia.
Defined.

(** ** More on the decode loop *)

Lemma scalar_field_body (self : MindwaveAdapter) (pre post : list byte)
  (c : scalar) (v : byte) (result : ReadingSet) :
  get_payload_values_body self (payload_of (pre ++ tag_of c :: v :: post))
    (Py.len pre) result
  = Ok (Py.len pre + 2, Py.setitem result (name_of c) (VInt (bz v))).
Proof.
  destruct c.
  - now apply scalar_tag_body with (key := 2).
  - now apply scalar_tag_body with (key := 4).
  - now apply scalar_tag_body with (key := 5).
  - now apply scalar_tag_body with (key := 16).
Qed.

Lemma raw_wave_field_body (self : MindwaveAdapter) (pre post : list byte)
  (hi lo : byte) (result : ReadingSet) :
  get_payload_values_body self
    (payload_of (pre ++ x80 :: x02 :: hi :: lo :: post)) (Py.len pre) result
  = Ok (Py.len pre + 5,
        Py.setitem result "raw_wave"
          (VInt (let v := bz hi * 256 + bz lo in
                 if v >=? 32768 then v - 65536 else v))).
Proof.
  unfold get_payload_values_body.
  rewrite payload_getitem_0. cbn [bind].
  change (Py.int (Py.hex ["128"%byte]) 10) with (Ok (A := Z) 80).
  cbn [bind]. change (Py.lookup (codes self) 80)
    with (Ok (A := string * decoder) ("raw_wave", raw_wave)).
  cbn [bind]. now rewrite raw_wave_ok.
Qed.

Lemma scalar_fields_loop (self : MindwaveAdapter) :
  forall (fields : list (scalar * byte)) (pre : list byte)
         (result : ReadingSet) (k : nat),
    get_payload_values_loop self (S (List.length fields) + k)
      (payload_of (pre ++ scalar_bytes fields))
      (Py.len pre + 2 * Py.len fields) (Py.len pre) result
    = Some (Ok (scalar_store fields result)).
Proof.
  induction fields as [|[c v] fields IH]; intros pre result k.
  - cbn [List.length Nat.add get_payload_values_loop].
    change (Py.len (@nil (scalar * byte))) with 0.
    destruct (Z.ltb_spec (Py.len pre) (Py.len pre + 2 * 0)); [lia|].
    reflexivity.
  - cbn [List.length Nat.add get_payload_values_loop].
    rewrite len_cons. pose proof (len_nonneg fields) as Hf.
    destruct (Z.ltb_spec (Py.len pre)
                (Py.len pre + 2 * (1 + Py.len fields))); [|lia].
    cbn [scalar_bytes flat_map fst snd app].
    fold (scalar_bytes fields).
    rewrite scalar_field_body.
    change (pre ++ tag_of c :: v :: scalar_bytes fields)
      with (pre ++ [tag_of c; v] ++ scalar_bytes fields).
    rewrite app_assoc.
    replace (Py.len pre + 2) with (Py.len (pre ++ [tag_of c; v]))
      by (rewrite len_app; reflexivity).
    replace (Py.len pre + 2 * (1 + Py.len fields))
      with (Py.len (pre ++ [tag_of c; v]) + 2 * Py.len fields)
      by (rewrite len_app; unfold Py.len; cbn [List.length]; lia).
    exact (IH (pre ++ [tag_of c; v]) _ k).
Qed.

(** X12: a payload made of scalar fields only decodes to the reading set
    got by storing each value under its field's name, in payload order, a
    later value replacing an earlier one of the same field. *)
Theorem scalar_fields_decode_in_order :
  forall (self : MindwaveAdapter) (fields : list (scalar * byte)) (k : nat),
    get_payload_values self (S (List.length fields) + k)
      (payload_of (scalar_bytes fields)) (2 * Py.len fields)
    = Some (Ok (scalar_store fields []))
    /\ forall (c : scalar) (v1 v2 : byte),
         scalar_store [(c, v1); (c, v2)] [] = [(name_of c, VInt (bz v2))].
Proof.
  intros self fields k. split.
  - unfold get_payload_values.
    exact (scalar_fields_loop self fields [] [] k).
  - intros c v1 v2. destruct c; reflexivity.
Qed.

(** X13: the raw-wave routine moves the index on by 5, one more than the
    four bytes of the field, so the byte that follows a raw-wave field is
    never looked at: whatever it is, a scalar field after it is decoded. *)
Theorem raw_wave_field_skips_next_byte :
  forall (self : MindwaveAdapter) (hi lo x v : byte) (c : scalar)
         (fuel : nat),
    get_payload_values self (S (S (S fuel)))
      (payload_of [x80; x02; hi; lo; x; tag_of c; v]) 7
    = Some (Ok [("raw_wave",
                 VInt (let n := bz hi * 256 + bz lo in
                       if n >=? 32768 then n - 65536 else n));
                (name_of c, VInt (bz v))]).
Proof.
  intros self hi lo x v c fuel. unfold get_payload_values.
  cbn [get_payload_values_loop]. change (0 <? 7) with true. cbv iota.
  pose proof (raw_wave_field_body self [] [x; tag_of c; v] hi lo []) as H1.
  cbn [app] in H1. change (Py.len (@nil byte)) with 0 in H1.
  rewrite H1. change (0 + 5) with 5. change (5 <? 7) with true. cbv iota.
  pose proof (scalar_field_body self [x80; x02; hi; lo; x] [] c v
                (Py.setitem [] "raw_wave"
                   (VInt (let n := bz hi * 256 + bz lo in
                          if n >=? 32768 then n - 65536 else n)))) as H2.
  cbn [app] in H2. change (Py.len [x80; x02; hi; lo; x]) with 5 in H2.
  rewrite H2. change (5 + 2) with 7.
  destruct fuel; cbn [get_payload_values_loop];
    change (7 <? 7) with false; cbv iota; destruct c; reflexivity.
Qed.

Lemma setitem_keys {V : Type} (d : list (string * V)) (k : string) (v : V) :
  (In k (Py.keys d) /\ Py.keys (Py.setitem d k v) = Py.keys d)
  \/ (~ In k (Py.keys d) /\ Py.keys (Py.setitem d k v) = Py.keys d ++ [k]).
Proof.
  induction d as [|[k0 v0] d IH].
  - right. split; [intros []|reflexivity].
  - cbn [Py.setitem]. destruct (String.eqb_spec k0 k) as [->|Hne].
    + left. split; [now left|reflexivity].
    + destruct IH as [[Hin E]|[Hn E]].
      * left. split; [now right|].
        unfold Py.keys in *. cbn [map fst]. now rewrite E.
      * right. split.
        -- intros [H|H]; [now apply Hne|now apply Hn].
        -- unfold Py.keys in *. cbn [map fst app]. now rewrite E.
Qed.

Lemma NoDup_snoc {A : Type} (l : list A) (a : A) :
  NoDup l -> ~ In a l -> NoDup (l ++ [a]).
Proof.
  induction 1 as [|x l Hx HN IH]; intro Ha; cbn [app].
  - constructor; [intros []|constructor].
  - constructor.
    + rewrite in_app_iff. intros [H|[H|[]]]; [now apply Hx|].
      apply Ha. now left.
    + apply IH. intro H. apply Ha. now right.
Qed.

Lemma lookup_codes_name (self : MindwaveAdapter) (key : Z) (name : string)
  (func : decoder) :
  Py.lookup (codes self) key = Ok (name, func) -> In name field_names.
Proof.
  unfold codes. cbn [Py.lookup].
  repeat match goal with
         | |- context [if ?c then _ else _] => destruct c
         end;
    intro H; inversion H; subst; cbn; tauto.
Qed.

Lemma body_keeps_keys (self : MindwaveAdapter) (payload : list string)
  (i j : Z) (result result' : ReadingSet) :
  get_payload_values_body self payload i result = Ok (j, result') ->
  NoDup (Py.keys result) -> incl (Py.keys result) field_names ->
  NoDup (Py.keys result') /\ incl (Py.keys result') field_names.
Proof.
  unfold get_payload_values_body.
  destruct (Py.getitem payload i) as [code|]; cbn [bind]; [|discriminate].
  destruct (Py.int code 10) as [key|]; cbn [bind]; [|discriminate].
  destruct (Py.lookup (codes self) key) as [[name func]|] eqn:L;
    cbn [bind]; [|discriminate].
  destruct (func payload i) as [[v j']|]; cbn [bind]; [|discriminate].
  intros H HN HI. inversion H; subst.
  apply lookup_codes_name in L.
  destruct (setitem_keys result name v) as [[_ E]|[Hn E]]; rewrite E.
  - now split.
  - split; [now apply NoDup_snoc|].
    intros k Hk. apply in_app_iff in Hk. destruct Hk as [Hk|[<-|[]]]; auto.
Qed.

Lemma loop_keeps_keys (self : MindwaveAdapter) (payload : list string)
  (length : Z) :
  forall (fuel : nat) (i : Z) (result r : ReadingSet),
    get_payload_values_loop self fuel payload length i result = Some (Ok r) ->
    NoDup (Py.keys result) -> incl (Py.keys result) field_names ->
    NoDup (Py.keys r) /\ incl (Py.keys r) field_names.
Proof.
  induction fuel as [|fuel IH]; intros i result r H HN HI; [discriminate|].
  cbn [get_payload_values_loop] in H.
  destruct (i <? length).
  - destruct (get_payload_values_body self payload i result)
      as [[j result']|] eqn:B; [|discriminate].
    destruct (body_keeps_keys _ _ _ _ _ _ B HN HI) as [HN' HI'].
    now apply IH in H.
  - inversion H; subst. now split.
Qed.

(** X14: the reading set [get_payload_values] returns has no key twice,
    all of its keys are names of [codes], and so it has at most six
    entries, however long the payload is. *)
Theorem decoded_keys_are_distinct_field_names :
  forall (self : MindwaveAdapter) (fuel : nat) (payload : list string)
         (length : Z) (result : ReadingSet),
    get_payload_values self fuel payload length = Some (Ok result) ->
    NoDup (Py.keys result)
    /\ incl (Py.keys result) field_names
    /\ (List.length result <= 6)%nat.
Proof.
  intros self fuel payload length result H.
  unfold get_payload_values in H.
  apply loop_keeps_keys in H; [|constructor|intros k []].
  destruct H as [HN HI]. repeat split; try assumption.
  pose proof (NoDup_incl_length HN HI) as Hl.
  unfold Py.keys in Hl. rewrite length_map in Hl. exact Hl.
Qed.

Lemma decoded_keys_are_distinct_field_names_witness :
  NoDup (Py.keys [("poor_signal", VInt 7)])
  /\ incl (Py.keys [("poor_signal", VInt 7)]) field_names
  /\ (List.length [("poor_signal", VInt 7)] <= 6)%nat.
Proof.
  exact (decoded_keys_are_distinct_field_names py3_adapter 3
           (payload_of [x02; x64; x02; x07]) 4 [("poor_signal", VInt 7)]
           eq_refl).
Defined.

Lemma getitem_raises {A : Type} (l : list A) (i : Z) (e : exn) :
  Py.getitem l i = Raise e -> e = IndexError.
Proof.
  unfold Py.getitem. cbv zeta.
  destruct (_ <? 0); [intro H; now inversion H|].
  destruct (nth_error _ _); intro H; now inversion H.
Qed.

Lemma lookup_raises {V : Type} (d : list (Z * V)) (k : Z) (e : exn) :
  Py.lookup d k = Raise e -> e = KeyError.
Proof.
  induction d as [|[k' v] d IH]; cbn [Py.lookup].
  - intro H. now inversion H.
  - destruct (k' =? k); [discriminate|exact IH].
Qed.

Lemma comprehension_int_raises (l : list string) (e : exn) :
  Py.comprehension (fun k => Py.int k 16) l = Raise e -> e = ValueError.
Proof.
  induction l as [|s l IH]; cbn [Py.comprehension]; [discriminate|].
  destruct (Py.int s 16) eqn:E; cbn [bind].
  - destruct (Py.comprehension _ l); cbn [bind]; [discriminate|].
    intro H. inversion H; subst. now apply IH.
  - intro H. inversion H; subst. now apply int_raises in E.
Qed.

Lemma big_endian_raises (l : list Z) (e : exn) :
  _big_endian l = Raise e -> e = IndexError.
Proof.
  unfold _big_endian.
  destruct (Py.getitem l 0) eqn:E0; cbn [bind];
    [|intro H; inversion H; subst; now apply getitem_raises in E0].
  destruct (Py.getitem l 1) eqn:E1; cbn [bind];
    [|intro H; inversion H; subst; now apply getitem_raises in E1].
  destruct (Py.getitem l 2) eqn:E2; cbn [bind];
    [discriminate|intro H; inversion H; subst; now apply getitem_raises in E2].
Qed.

Lemma asic_eeg_loop_raises (self : MindwaveAdapter) (payload : list string) :
  forall (range_ : list Z) (start end_ : Z) (result : list (string * Z))
         (e : exn),
    asic_eeg_loop self payload range_ start end_ result = Raise e ->
    e = ValueError \/ e = IndexError.
Proof.
  induction range_ as [|count range_ IH]; intros start end_ result e;
    cbn [asic_eeg_loop]; [discriminate|].
  destruct (Py.getitem (waves self) count) eqn:E0; cbn [bind];
    [|intro H; inversion H; subst; right; now apply getitem_raises in E0].
  destruct (Py.comprehension _ _) as [numbers|] eqn:E1; cbn [bind];
    [|intro H; inversion H; subst; left;
      now apply comprehension_int_raises in E1].
  destruct (_big_endian numbers) eqn:E2; cbn [bind];
    [apply IH|intro H; inversion H; subst; right;
              now apply big_endian_raises in E2].
Qed.

Lemma routine_raises (self : MindwaveAdapter) (func : decoder)
  (payload : list string) (i : Z) (e : exn) :
  func = read_default_value \/ func = raw_wave \/ func = asic_eeg self ->
  func payload i = Raise e -> e = ValueError \/ e = IndexError.
Proof.
  intros [->|[->| ->]].
  - unfold read_default_value. cbv zeta.
    destruct (Py.getitem _ _) eqn:E0; cbn [bind];
      [|intro H; inversion H; subst; right; now apply getitem_raises in E0].
    destruct (Py.int _ 16) eqn:E1; cbn [bind];
      [discriminate|intro H; inversion H; subst; left;
                    now apply int_raises in E1].
  - unfold raw_wave.
    destruct (Py.getitem _ _) eqn:E0; cbn [bind];
      [|intro H; inversion H; subst; right; now apply getitem_raises in E0].
    destruct (Py.int _ 10) as [n|] eqn:E1; cbn [bind];
      [|intro H; inversion H; subst; left; now apply int_raises in E1].
    destruct (negb (n =? 2)); [intro H; inversion H; now left|].
    destruct (Py.comprehension _ _) as [ks|] eqn:E2; cbn [bind];
      [|intro H; inversion H; subst; left;
        now apply comprehension_int_raises in E2].
    destruct ks as [|k1 [|k2 [|k3 ks]]]; intro H; inversion H; now left.
  - unfold asic_eeg. cbv zeta.
    destruct (Py.getitem _ _) eqn:E0; cbn [bind];
      [|intro H; inversion H; subst; right; now apply getitem_raises in E0].
    destruct (Py.int _ 10) eqn:E1; cbn [bind];
      [|intro H; inversion H; subst; left; now apply int_raises in E1].
    destruct (asic_eeg_loop _ _ _ _ _ _) eqn:E2; cbn [bind];
      [discriminate|].
    intro H. inversion H; subst. now apply asic_eeg_loop_raises in E2.
Qed.

Lemma body_raises (self : MindwaveAdapter) (payload : list string) (i : Z)
  (result : ReadingSet) (e : exn) :
  get_payload_values_body self payload i result = Raise e ->
  e = KeyError \/ e = ValueError \/ e = IndexError.
Proof.
  unfold get_payload_values_body.
  destruct (Py.getitem payload i) eqn:E0; cbn [bind];
    [|intro H; inversion H; subst; right; right;
      now apply getitem_raises in E0].
  destruct (Py.int _ 10) as [key|] eqn:E1; cbn [bind];
    [|intro H; inversion H; subst; right; left; now apply int_raises in E1].
  destruct (Py.lookup (codes self) key) as [[name func]|] eqn:E2;
    cbn [bind];
    [|intro H; inversion H; subst; left; now apply lookup_raises in E2].
  destruct (func payload i) as [[v j]|] eqn:E3; cbn [bind]; [discriminate|].
  intro H. inversion H; subst. right.
  apply (routine_raises self func payload i); [|assumption].
  now apply lookup_codes in E2.
Qed.

Lemma loop_raises (self : MindwaveAdapter) (payload : list string)
  (length : Z) :
  forall (fuel : nat) (i : Z) (result : ReadingSet) (e : exn),
    get_payload_values_loop self fuel payload length i result
    = Some (Raise e) ->
    e = KeyError \/ e = ValueError \/ e = IndexError.
Proof.
  induction fuel as [|fuel IH]; intros i result e H; [discriminate|].
  cbn [get_payload_values_loop] in H.
  destruct (i <? length); [|discriminate].
  destruct (get_payload_values_body self payload i result)
    as [[j result']|e'] eqn:B.
  - now apply IH in H.
  - inversion H; subst. now apply body_raises in B.
Qed.

(** X15: the only exceptions [get_payload_values] raises are [KeyError],
    [ValueError] and [IndexError]; it never raises [ChecksumFailed], the one
    exception the generator catches. *)
Theorem decode_raises_only_key_value_index_errors :
  forall (self : MindwaveAdapter) (fuel : nat) (payload : list string)
         (length : Z) (e : exn),
    get_payload_values self fuel payload length = Some (Raise e) ->
    (e = KeyError \/ e = ValueError \/ e = IndexError)
    /\ e <> ChecksumFailed.
Proof.
  intros self fuel payload length e H.
  apply loop_raises in H.
  split; [exact H|]. destruct H as [->|[->| ->]]; discriminate.
Qed.

Lemma decode_raises_only_key_value_index_errors_witness :
  (KeyError = KeyError \/ KeyError = ValueError \/ KeyError = IndexError)
  /\ KeyError <> ChecksumFailed.
Proof.
  exact (decode_raises_only_key_value_index_errors py3_adapter 1
           (payload_of [x10; x64]) 2 KeyError eq_refl).
Defined.

(** ** More on the generator *)

Lemma keys_eq_raw_wave (self : MindwaveAdapter) (result : ReadingSet) :
  keys_eq self result ["raw_wave"]
  = if runtime self =? 2 then raw_wave_only result else false.
Proof. reflexivity. Qed.

(** X16: a packet with a length byte of at most 169 and the right checksum,
    whose payload decodes to a reading set that is not dropped (the
    adapter does not skip, or the set has other keys than [raw_wave]), is
    yielded as decoded, and the generator goes on with the byte after the
    checksum: reading sets come out in the order of their packets. *)
Theorem valid_packet_is_yielded_in_order :
  forall (major : Z) (port_ : string) (baudrate_ timeout_ : Z) (skip : bool)
         (self : MindwaveAdapter),
    __init__ major port_ baudrate_ timeout_ skip = Ok self ->
    forall (fuel : nat) (l c : byte) (B rest : list byte) (out : list Line)
           (result : ReadingSet),
      bz l = Py.len B -> bz l <= 169 -> bz c = checksum_of B ->
      get_payload_values self (S fuel) (payload_of B) (bz l)
        = Some (Ok result) ->
      skip = false \/ raw_wave_only result = false ->
      values self (S fuel) (mkWorld (xaa :: xaa :: l :: B ++ c :: rest) out)
      = (let '(ys, stop, w) := values self fuel (mkWorld rest out) in
         (result :: ys, stop, w)).
Proof.
  intros major port_ baudrate_ timeout_ skip self Hinit fuel l c B rest out
         result Hl Hle Hc Hg Hkeep.
  pose proof (init_encode _ _ _ _ _ _ Hinit) as Henc.
  pose proof (init_open _ _ _ _ _ _ Hinit) as Hopen.
  rewrite values_unfold, values_body_packet by assumption. rewrite Hg.
  rewrite (init_skip _ _ _ _ _ _ Hinit), keys_eq_raw_wave.
  assert (E : skip && (if runtime self =? 2 then raw_wave_only result
                       else false) = false).
  { destruct Hkeep as [-> | ->]; [reflexivity|].
    destruct (runtime self =? 2); apply andb_false_r. }
  now rewrite E.
Qed.

Lemma valid_packet_is_yielded_in_order_witness :
  values py3_adapter 3
    (mkWorld [xaa; xaa; x02; x02; x64; x99; xaa; xaa; x02; x04; x32; xc9] [])
  = (let '(ys, stop, w) :=
       values py3_adapter 2 (mkWorld [xaa; xaa; x02; x04; x32; xc9] []) in
     ([("poor_signal", VInt 100)] :: ys, stop, w)).
Proof.
  refine (valid_packet_is_yielded_in_order 3 default_port default_baudrate
            default_timeout default_skip_raw_wave py3_adapter eq_refl
            2%nat x02 x99 [x02; x64] [xaa; xaa; x02; x04; x32; xc9] []
            [("poor_signal", VInt 100)] eq_refl _ eq_refl eq_refl _).
  - discriminate.
  - right. reflexivity.
Defined.

Lemma raw_wave_packet_decodes (self : MindwaveAdapter) (hi lo : byte)
  (fuel : nat) :
  get_payload_values self (S (S fuel)) (payload_of [x80; x02; hi; lo]) 4
  = Some (Ok [("raw_wave",
               VInt (let v := bz hi * 256 + bz lo in
                     if v >=? 32768 then v - 65536 else v))]).
Proof.
  unfold get_payload_values.
  cbn [get_payload_values_loop]. change (0 <? 4) with true. cbv iota.
  pose proof (raw_wave_field_body self [] [] hi lo []) as H1.
  cbn [app] in H1. change (Py.len (@nil byte)) with 0 in H1.
  rewrite H1. reflexivity.
Qed.

(** X17: under Python 2 an adapter built with [skip_raw_wave=True] yields
    nothing for the packet AA AA 04 80 02 hi lo with its checksum, whatever
    the sample is, and goes on with the bytes after it; built with
    [skip_raw_wave=False] it yields the sample. *)
Theorem python2_skips_raw_wave_packets :
  forall (port_ : string) (baudrate_ timeout_ : Z) (skip : bool)
         (self : MindwaveAdapter),
    __init__ 2 port_ baudrate_ timeout_ skip = Ok self ->
    forall (hi lo c : byte) (rest : list byte) (out : list Line)
           (fuel : nat),
      bz c = checksum_of [x80; x02; hi; lo] ->
      values self (S (S fuel))
        (mkWorld (xaa :: xaa :: x04 :: x80 :: x02 :: hi :: lo :: c :: rest)
           out)
      = if skip then values self (S fuel) (mkWorld rest out)
        else (let '(ys, stop, w) :=
                values self (S fuel) (mkWorld rest out) in
              ([("raw_wave",
                 VInt (let v := bz hi * 256 + bz lo in
                       if v >=? 32768 then v - 65536 else v))] :: ys,
               stop, w)).
Proof.
  intros port_ baudrate_ timeout_ skip self Hinit hi lo c rest out fuel Hc.
  pose proof (init_encode _ _ _ _ _ _ Hinit) as Henc.
  pose proof (init_open _ _ _ _ _ _ Hinit) as Hopen.
  pose proof (init_runtime _ _ _ _ _ _ Hinit) as [Hr _].
  change (xaa :: xaa :: x04 :: x80 :: x02 :: hi :: lo :: c :: rest)
    with (xaa :: xaa :: x04 :: [x80; x02; hi; lo] ++ c :: rest).
  rewrite values_unfold, values_body_packet
    by (assumption || reflexivity || discriminate).
  change (bz x04) with 4. rewrite raw_wave_packet_decodes.
  rewrite (init_skip _ _ _ _ _ _ Hinit), keys_eq_raw_wave, Hr.
  destruct skip; reflexivity.
Qed.

Lemma python2_skips_raw_wave_packets_witness :
  values py2_adapter 3 (mkWorld [xaa; xaa; x04; x80; x02; x00; x01; x7c] [])
  = values py2_adapter 2 (mkWorld [] []).
Proof.
  exact (python2_skips_raw_wave_packets default_port default_baudrate
           default_timeout true py2_adapter eq_refl x00 x01 x7c [] []
           1%nat eq_refl).
Defined.

(** *** Two adapters that differ in the interpreter only *)

Section Agree.

Variables self self' : MindwaveAdapter.
Hypothesis Henc : forall bs, encode self bs = Py.hex bs.
Hypothesis Henc' : forall bs, encode self' bs = Py.hex bs.
Hypothesis Hopen : is_open (sensor self) = true.
Hypothesis Hopen' : is_open (sensor self') = true.
Hypothesis Hwaves : waves self = waves self'.

Lemma read_agree (n : Z) (w : World) : _read self n w = _read self' n w.
Proof. unfold _read, Serial_read. now rewrite Henc, Henc'. Qed.

Lemma read_int_agree (n : Z) (w : World) :
  _read_int self n w = _read_int self' n w.
Proof. unfold _read_int. now rewrite read_agree. Qed.

Lemma wait_agree :
  forall (fuel : nat) (w : World),
    _wait_for_ready_state self fuel w = _wait_for_ready_state self' fuel w.
Proof.
  induction fuel as [|fuel IH]; intro w; [reflexivity|].
  cbn [_wait_for_ready_state]. rewrite Hopen, Hopen'.
  rewrite (read_agree 1 w). destruct (_read self' 1 w) as [a w1].
  rewrite (read_agree 1 w1). destruct (_read self' 1 w1) as [b w2].
  destruct (negb (String.eqb a "aa") || negb (String.eqb b "aa"));
    [|reflexivity].
  rewrite (read_agree 1 w2). destruct (_read self' 1 w2) as [b' w3].
  apply IH.
Qed.

Lemma read_packet_loop_agree :
  forall (range_ : list Z) (checksum : Z) (result : list string) (w : World),
    _read_packet_loop self range_ checksum result w
    = _read_packet_loop self' range_ checksum result w.
Proof.
  induction range_ as [|k range_ IH]; intros checksum result w;
    [reflexivity|].
  cbn [_read_packet_loop]. rewrite (read_agree 1 w).
  destruct (_read self' 1 w) as [value w1].
  destruct (Py.int value 16); [apply IH|reflexivity].
Qed.

Lemma read_packet_agree (length : Z) (w : World) :
  _read_packet self length w = _read_packet self' length w.
Proof.
  unfold _read_packet. rewrite read_packet_loop_agree.
  destruct (_read_packet_loop self' (Py.range 0 length) 0 [] w)
    as [[[checksum result]|e] w1]; [|reflexivity].
  now rewrite read_int_agree.
Qed.

Lemma asic_eeg_loop_agree (payload : list string) :
  forall (range_ : list Z) (start end_ : Z) (result : list (string * Z)),
    asic_eeg_loop self payload range_ start end_ result
    = asic_eeg_loop self' payload range_ start end_ result.
Proof.
  induction range_ as [|count range_ IH]; intros start end_ result;
    [reflexivity|].
  cbn [asic_eeg_loop]. rewrite Hwaves.
  destruct (Py.getitem (waves self') count); cbn [bind]; [|reflexivity].
  destruct (Py.comprehension _ _) as [numbers|]; cbn [bind]; [|reflexivity].
  destruct (_big_endian numbers); cbn [bind]; [apply IH|reflexivity].
Qed.

Lemma asic_eeg_agree (payload : list string) (i : Z) :
  asic_eeg self payload i = asic_eeg self' payload i.
Proof. unfold asic_eeg. cbv zeta. now rewrite asic_eeg_loop_agree. Qed.

Lemma body_agree (payload : list string) (i : Z) (result : ReadingSet) :
  get_payload_values_body self payload i result
  = get_payload_values_body self' payload i result.
Proof.
  unfold get_payload_values_body.
  destruct (Py.getitem payload i) as [code|]; cbn [bind]; [|reflexivity].
  destruct (Py.int code 10) as [key|]; cbn [bind]; [|reflexivity].
  unfold codes. cbn [Py.lookup].
  repeat match goal with
         | |- context [?k =? key] => destruct (k =? key)
         end;
    cbn [bind]; try reflexivity.
  now rewrite asic_eeg_agree.
Qed.

Lemma loop_agree (payload : list string) (length : Z) :
  forall (fuel : nat) (i : Z) (result : ReadingSet),
    get_payload_values_loop self fuel payload length i result
    = get_payload_values_loop self' fuel payload length i result.
Proof.
  induction fuel as [|fuel IH]; intros i result; [reflexivity|].
  cbn [get_payload_values_loop]. rewrite body_agree.
  destruct (i <? length); [|reflexivity].
  destruct (get_payload_values_body self' payload i result)
    as [[j result']|]; [apply IH|reflexivity].
Qed.

Hypothesis Hskip : skip_raw_wave self = skip_raw_wave self'.
Hypothesis Hpy2 : runtime self = 2.
Hypothesis Hpy3 : runtime self' = 3.

Lemma values_body_py2_py3 (fuel : nat) (w : World) :
  values_body self fuel w
  = match values_body self' fuel w with
    | Some (Yield r, w') =>
        if skip_raw_wave self && raw_wave_only r then Some (Continue, w')
        else Some (Yield r, w')
    | other => other
    end.
Proof.
  unfold values_body. rewrite wait_agree.
  destruct (_wait_for_ready_state self' fuel w) as [[r0 w1]|];
    [|reflexivity].
  rewrite read_int_agree.
  destruct (_read_int self' 1 w1) as [[length|e] w2]; [|reflexivity].
  destruct (length >? 169); [reflexivity|].
  unfold values_try. rewrite read_packet_agree.
  destruct (_read_packet self' length w2) as [[payload|e] w3];
    [|destruct e; reflexivity].
  unfold get_payload_values. rewrite loop_agree.
  destruct (get_payload_values_loop self' fuel payload length 0 [])
    as [[result|e]|]; [|destruct e; reflexivity|reflexivity].
  rewrite !keys_eq_raw_wave, Hpy2, Hpy3. cbn [Z.eqb Pos.eqb].
  rewrite andb_false_r.
  destruct (skip_raw_wave self && raw_wave_only result); reflexivity.
Qed.

Lemma values_py2_py3 :
  forall (fuel : nat) (w : World),
    values self fuel w
    = (let '(ys, stop, w') := values self' fuel w in
       (if skip_raw_wave self
        then filter (fun r => negb (raw_wave_only r)) ys
        else ys,
        stop, w')).
Proof.
  induction fuel as [|fuel IH]; intro w.
  - cbn [values]. destruct (skip_raw_wave self); reflexivity.
  - rewrite !values_unfold by assumption. rewrite values_body_py2_py3.
    destruct (values_body self' (S fuel) w) as [[[r| |e] w1]|].
    + specialize (IH w1).
      destruct (values self' fuel w1) as [[ys stop] w2].
      destruct (skip_raw_wave self) eqn:Es; cbn [andb].
      * cbn [filter]. destruct (raw_wave_only r); cbn [negb].
        -- exact IH.
        -- now rewrite IH.
      * now rewrite IH.
    + apply IH.
    + destruct (skip_raw_wave self); reflexivity.
    + destruct (skip_raw_wave self); reflexivity.
Qed.

End Agree.

(** X18: for adapters built from the same arguments, one under Python 2 and
    one under Python 3, the two generators stop the same way on the same
    input and leave the same world; with [skip_raw_wave=False] they yield
    the same reading sets, and with [skip_raw_wave=True] the Python 2
    adapter yields those of the Python 3 adapter less the ones whose only
    key is [raw_wave]. *)
Theorem python2_yields_python3_less_raw_wave_only :
  forall (port_ : string) (baudrate_ timeout_ : Z) (skip : bool)
         (self2 self3 : MindwaveAdapter),
    __init__ 2 port_ baudrate_ timeout_ skip = Ok self2 ->
    __init__ 3 port_ baudrate_ timeout_ skip = Ok self3 ->
    forall (fuel : nat) (w : World),
      values self2 fuel w
      = (let '(ys, stop, w') := values self3 fuel w in
         (if skip then filter (fun r => negb (raw_wave_only r)) ys else ys,
          stop, w')).
Proof.
  intros port_ baudrate_ timeout_ skip self2 self3 H2 H3 fuel w.
  rewrite <- (init_skip _ _ _ _ _ _ H2).
  apply values_py2_py3.
  - apply (init_encode _ _ _ _ _ _ H2).
  - apply (init_encode _ _ _ _ _ _ H3).
  - apply (init_open _ _ _ _ _ _ H2).
  - apply (init_open _ _ _ _ _ _ H3).
  - now rewrite (init_waves _ _ _ _ _ _ H2), (init_waves _ _ _ _ _ _ H3).
  - now rewrite (init_skip _ _ _ _ _ _ H2), (init_skip _ _ _ _ _ _ H3).
  - apply (init_runtime _ _ _ _ _ _ H2).
  - apply (init_runtime _ _ _ _ _ _ H3).
Qed.

Lemma python2_yields_python3_less_raw_wave_only_witness :
  values py2_adapter 5
    (mkWorld [xaa; xaa; x04; x80; x02; x00; x01; x7c;
              x00; xaa; xaa; x02; x02; x64; x99] [])
  = (let '(ys, stop, w') :=
       values py3_adapter 5
         (mkWorld [xaa; xaa; x04; x80; x02; x00; x01; x7c;
                   x00; xaa; xaa; x02; x02; x64; x99] []) in
     (filter (fun r => negb (raw_wave_only r)) ys, stop, w')).
Proof.
  exact (python2_yields_python3_less_raw_wave_only default_port
           default_baudrate default_timeout true py2_adapter py3_adapter
           eq_refl eq_refl 5%nat
           (mkWorld [xaa; xaa; x04; x80; x02; x00; x01; x7c;
                     x00; xaa; xaa; x02; x02; x64; x99] [])).
Defined.

(** *** A packet cut short *)

(** X21: when the line runs dry right after the sync bytes, or inside a
    packet whose length byte is at most 169, the read that times out makes
    the generator raise [ValueError]: a packet cut short stops the stream
    instead of being skipped. *)
Theorem values_on_cut_packet_raises_value_error :
  forall (major : Z) (port_ : string) (baudrate_ timeout_ : Z) (skip : bool)
         (self : MindwaveAdapter),
    __init__ major port_ baudrate_ timeout_ skip = Ok self ->
    forall (l : byte) (B : list byte) (out : list Line) (fuel : nat),
      values self (S fuel) (mkWorld [xaa; xaa] out)
        = ([], Raised ValueError, mkWorld [] out)
      /\ (Py.len B <= bz l -> bz l <= 169 ->
          values self (S fuel) (mkWorld (xaa :: xaa :: l :: B) out)
          = ([], Raised ValueError, mkWorld [] out)).
Proof.
  intros major port_ baudrate_ timeout_ skip self Hinit l B out fuel.
  pose proof (init_encode _ _ _ _ _ _ Hinit) as Henc.
  pose proof (init_open _ _ _ _ _ _ Hinit) as Hopen.
  split.
  - rewrite values_unfold by assumption. unfold values_body.
    now rewrite wait_ready_now, read_int_nil.
  - intros HB Hle. rewrite values_unfold by assumption. unfold values_body.
    rewrite wait_ready_now, read_int_cons by assumption.
    destruct (Z.gtb_spec (bz l) 169); [lia|].
    unfold values_try. now rewrite read_packet_short.
Qed.

Lemma values_on_cut_packet_raises_value_error_witness :
  values py3_adapter 1 (mkWorld [xaa; xaa; x04; x80; x02; x00] [])
  = ([], Raised ValueError, mkWorld [] []).
Proof.
  refine (proj2 (values_on_cut_packet_raises_value_error 3 default_port
                   default_baudrate default_timeout default_skip_raw_wave
                   py3_adapter eq_refl x04 [x80; x02; x00] [] 0%nat) _ _).
  - discriminate.
  - discriminate.
Defined.
